(** * msandroidcamera2: the Camera2 capture filter of mediastreamer2

    A shallow embedding of [android-camera2-capture.cpp].  The NDK camera and
    media libraries and the mediastreamer2 host are external: they are an
    interface ([Ndk]) whose answers the plugin cannot predict, and every call
    the plugin issues is recorded in a trace.  Pointers to opaque NDK objects
    are addresses ([nullptr] is 0); pointers to objects whose content the
    plugin reads ([device], [filter], [frame]) are options. *)

From Stdlib Require Import ZArith List String Bool Lia Permutation.
Import ListNotations.
Local Open Scope string_scope.
Local Open Scope list_scope.
Local Open Scope Z_scope.

(** ** Machine integers *)

Definition INT32_MIN : Z := -2147483648.
Definition INT32_MAX : Z := 2147483647.

(** Two's complement wrap-around of a 32-bit signed integer. *)
Definition wrap32 (z : Z) : Z := (z + 2147483648) mod 4294967296 - 2147483648.

Definition add32 (a b : Z) : Z := wrap32 (a + b).
Definition sub32 (a b : Z) : Z := wrap32 (a - b).
Definition mul32 (a b : Z) : Z := wrap32 (a * b).

Definition int32 (z : Z) : Prop := INT32_MIN <= z <= INT32_MAX.

(** ** Pointers to opaque platform objects *)

Definition pointer := Z.
Definition nullptr : pointer := 0.
Definition is_null (p : pointer) : bool := p =? nullptr.

(** ** Data model *)

Record AndroidCamera2Device := {
  camId : string;
  orientation : Z;
  back_facing : bool
}.

Record MSVideoSize := { width : Z; height : Z }.

Record MSTicker := { time : Z }.
Record MSFilter := { ticker : option MSTicker }.

(** A message block is known by its allocation. *)
Definition mblk_t := nat.

(** The filter's private data.  The frame-rate bookkeeping ([fps],
    [fpsControl], [averageFps]), the buffer allocator and the two locks
    belong to the host library and live in the host's world. *)
Record AndroidCamera2Context := {
  filter : option MSFilter;
  capturing : bool;
  device : option AndroidCamera2Device;
  rotation : Z;
  captureSize : MSVideoSize;
  captureFormat : Z;
  frame : option mblk_t;
  cameraDevice : pointer;
  captureSession : pointer;
  captureSessionOutputContainer : pointer;
  captureWindow : pointer;
  captureRequest : pointer;
  cameraCaptureOutputTarget : pointer;
  sessionCaptureOutput : pointer;
  imageReader : pointer
}.

Definition set_capturing (v : bool) (d : AndroidCamera2Context) :=
  {| filter := filter d; capturing := v; device := device d; rotation := rotation d;
     captureSize := captureSize d; captureFormat := captureFormat d; frame := frame d;
     cameraDevice := cameraDevice d; captureSession := captureSession d;
     captureSessionOutputContainer := captureSessionOutputContainer d;
     captureWindow := captureWindow d; captureRequest := captureRequest d;
     cameraCaptureOutputTarget := cameraCaptureOutputTarget d;
     sessionCaptureOutput := sessionCaptureOutput d; imageReader := imageReader d |}.

Definition set_filter (v : option MSFilter) (d : AndroidCamera2Context) :=
  {| filter := v; capturing := capturing d; device := device d; rotation := rotation d;
     captureSize := captureSize d; captureFormat := captureFormat d; frame := frame d;
     cameraDevice := cameraDevice d; captureSession := captureSession d;
     captureSessionOutputContainer := captureSessionOutputContainer d;
     captureWindow := captureWindow d; captureRequest := captureRequest d;
     cameraCaptureOutputTarget := cameraCaptureOutputTarget d;
     sessionCaptureOutput := sessionCaptureOutput d; imageReader := imageReader d |}.

Definition set_device (v : option AndroidCamera2Device) (d : AndroidCamera2Context) :=
  {| filter := filter d; capturing := capturing d; device := v; rotation := rotation d;
     captureSize := captureSize d; captureFormat := captureFormat d; frame := frame d;
     cameraDevice := cameraDevice d; captureSession := captureSession d;
     captureSessionOutputContainer := captureSessionOutputContainer d;
     captureWindow := captureWindow d; captureRequest := captureRequest d;
     cameraCaptureOutputTarget := cameraCaptureOutputTarget d;
     sessionCaptureOutput := sessionCaptureOutput d; imageReader := imageReader d |}.

Definition set_rotation (v : Z) (d : AndroidCamera2Context) :=
  {| filter := filter d; capturing := capturing d; device := device d; rotation := v;
     captureSize := captureSize d; captureFormat := captureFormat d; frame := frame d;
     cameraDevice := cameraDevice d; captureSession := captureSession d;
     captureSessionOutputContainer := captureSessionOutputContainer d;
     captureWindow := captureWindow d; captureRequest := captureRequest d;
     cameraCaptureOutputTarget := cameraCaptureOutputTarget d;
     sessionCaptureOutput := sessionCaptureOutput d; imageReader := imageReader d |}.

Definition set_captureSize (v : MSVideoSize) (d : AndroidCamera2Context) :=
  {| filter := filter d; capturing := capturing d; device := device d; rotation := rotation d;
     captureSize := v; captureFormat := captureFormat d; frame := frame d;
     cameraDevice := cameraDevice d; captureSession := captureSession d;
     captureSessionOutputContainer := captureSessionOutputContainer d;
     captureWindow := captureWindow d; captureRequest := captureRequest d;
     cameraCaptureOutputTarget := cameraCaptureOutputTarget d;
     sessionCaptureOutput := sessionCaptureOutput d; imageReader := imageReader d |}.

Definition set_frame (v : option mblk_t) (d : AndroidCamera2Context) :=
  {| filter := filter d; capturing := capturing d; device := device d; rotation := rotation d;
     captureSize := captureSize d; captureFormat := captureFormat d; frame := v;
     cameraDevice := cameraDevice d; captureSession := captureSession d;
     captureSessionOutputContainer := captureSessionOutputContainer d;
     captureWindow := captureWindow d; captureRequest := captureRequest d;
     cameraCaptureOutputTarget := cameraCaptureOutputTarget d;
     sessionCaptureOutput := sessionCaptureOutput d; imageReader := imageReader d |}.

Definition set_cameraDevice (v : pointer) (d : AndroidCamera2Context) :=
  {| filter := filter d; capturing := capturing d; device := device d; rotation := rotation d;
     captureSize := captureSize d; captureFormat := captureFormat d; frame := frame d;
     cameraDevice := v; captureSession := captureSession d;
     captureSessionOutputContainer := captureSessionOutputContainer d;
     captureWindow := captureWindow d; captureRequest := captureRequest d;
     cameraCaptureOutputTarget := cameraCaptureOutputTarget d;
     sessionCaptureOutput := sessionCaptureOutput d; imageReader := imageReader d |}.

Definition set_captureSession (v : pointer) (d : AndroidCamera2Context) :=
  {| filter := filter d; capturing := capturing d; device := device d; rotation := rotation d;
     captureSize := captureSize d; captureFormat := captureFormat d; frame := frame d;
     cameraDevice := cameraDevice d; captureSession := v;
     captureSessionOutputContainer := captureSessionOutputContainer d;
     captureWindow := captureWindow d; captureRequest := captureRequest d;
     cameraCaptureOutputTarget := cameraCaptureOutputTarget d;
     sessionCaptureOutput := sessionCaptureOutput d; imageReader := imageReader d |}.

Definition set_captureSessionOutputContainer (v : pointer) (d : AndroidCamera2Context) :=
  {| filter := filter d; capturing := capturing d; device := device d; rotation := rotation d;
     captureSize := captureSize d; captureFormat := captureFormat d; frame := frame d;
     cameraDevice := cameraDevice d; captureSession := captureSession d;
     captureSessionOutputContainer := v;
     captureWindow := captureWindow d; captureRequest := captureRequest d;
     cameraCaptureOutputTarget := cameraCaptureOutputTarget d;
     sessionCaptureOutput := sessionCaptureOutput d; imageReader := imageReader d |}.

Definition set_captureWindow (v : pointer) (d : AndroidCamera2Context) :=
  {| filter := filter d; capturing := capturing d; device := device d; rotation := rotation d;
     captureSize := captureSize d; captureFormat := captureFormat d; frame := frame d;
     cameraDevice := cameraDevice d; captureSession := captureSession d;
     captureSessionOutputContainer := captureSessionOutputContainer d;
     captureWindow := v; captureRequest := captureRequest d;
     cameraCaptureOutputTarget := cameraCaptureOutputTarget d;
     sessionCaptureOutput := sessionCaptureOutput d; imageReader := imageReader d |}.

Definition set_captureRequest (v : pointer) (d : AndroidCamera2Context) :=
  {| filter := filter d; capturing := capturing d; device := device d; rotation := rotation d;
     captureSize := captureSize d; captureFormat := captureFormat d; frame := frame d;
     cameraDevice := cameraDevice d; captureSession := captureSession d;
     captureSessionOutputContainer := captureSessionOutputContainer d;
     captureWindow := captureWindow d; captureRequest := v;
     cameraCaptureOutputTarget := cameraCaptureOutputTarget d;
     sessionCaptureOutput := sessionCaptureOutput d; imageReader := imageReader d |}.

Definition set_cameraCaptureOutputTarget (v : pointer) (d : AndroidCamera2Context) :=
  {| filter := filter d; capturing := capturing d; device := device d; rotation := rotation d;
     captureSize := captureSize d; captureFormat := captureFormat d; frame := frame d;
     cameraDevice := cameraDevice d; captureSession := captureSession d;
     captureSessionOutputContainer := captureSessionOutputContainer d;
     captureWindow := captureWindow d; captureRequest := captureRequest d;
     cameraCaptureOutputTarget := v;
     sessionCaptureOutput := sessionCaptureOutput d; imageReader := imageReader d |}.

Definition set_sessionCaptureOutput (v : pointer) (d : AndroidCamera2Context) :=
  {| filter := filter d; capturing := capturing d; device := device d; rotation := rotation d;
     captureSize := captureSize d; captureFormat := captureFormat d; frame := frame d;
     cameraDevice := cameraDevice d; captureSession := captureSession d;
     captureSessionOutputContainer := captureSessionOutputContainer d;
     captureWindow := captureWindow d; captureRequest := captureRequest d;
     cameraCaptureOutputTarget := cameraCaptureOutputTarget d;
     sessionCaptureOutput := v; imageReader := imageReader d |}.

Definition set_imageReader (v : pointer) (d : AndroidCamera2Context) :=
  {| filter := filter d; capturing := capturing d; device := device d; rotation := rotation d;
     captureSize := captureSize d; captureFormat := captureFormat d; frame := frame d;
     cameraDevice := cameraDevice d; captureSession := captureSession d;
     captureSessionOutputContainer := captureSessionOutputContainer d;
     captureWindow := captureWindow d; captureRequest := captureRequest d;
     cameraCaptureOutputTarget := cameraCaptureOutputTarget d;
     sessionCaptureOutput := sessionCaptureOutput d; imageReader := v |}.

(** The eight resource handles of a session. *)
Definition handles (d : AndroidCamera2Context) : list pointer :=
  [ cameraDevice d; captureSession d; captureSessionOutputContainer d; captureWindow d;
    captureRequest d; cameraCaptureOutputTarget d; sessionCaptureOutput d; imageReader d ].

Definition handles_null (d : AndroidCamera2Context) : Prop :=
  Forall (fun p => p = nullptr) (handles d).

(** ** The platform interface *)

(** The NDK calls the plugin issues, with the arguments it passes.  A call
    that receives the address of a field also carries [cur], what the field
    holds when the call is made. *)
Inductive NdkCall :=
| ACameraManager_create
| ACameraManager_delete (manager : pointer)
| ACameraManager_openCamera (manager : pointer) (id : string)
| ACameraDevice_close (dev : pointer)
| ACaptureSessionOutputContainer_create (cur : pointer)
| AImageReader_new (w h format maxImages : Z) (cur : pointer)
| AImageReader_setImageListener (reader : pointer)
| AImageReader_getWindow (reader cur : pointer)
| ANativeWindow_acquire (window : pointer)
| ACameraOutputTarget_create (window cur : pointer)
| ACameraDevice_createCaptureRequest (dev : pointer) (template : Z) (cur : pointer)
| ACaptureRequest_addTarget (request target : pointer)
| ACaptureSessionOutput_create (window cur : pointer)
| ACaptureSessionOutputContainer_add (container output : pointer)
| ACameraCaptureSession_setRepeatingRequest (session : pointer) (numRequests : Z)
    (request : pointer)
| ACameraCaptureSession_stopRepeating (session : pointer)
| ACameraCaptureSession_close (session : pointer)
| ACameraOutputTarget_free (target : pointer)
| ACaptureRequest_free (request : pointer)
| ACaptureSessionOutputContainer_remove (container output : pointer)
| ACaptureSessionOutput_free (output : pointer)
| ANativeWindow_release (window : pointer)
| AImageReader_delete (reader : pointer)
| ACaptureSessionOutputContainer_free (container : pointer)
| AImageReader_getFormat (reader : pointer)
| AImageReader_acquireNextImage (reader : pointer)
| AImage_getWidth (image : pointer)
| AImage_getHeight (image : pointer)
| AImage_getPlaneRowStride (image : pointer) (plane : Z)
| AImage_getPlaneData (image : pointer) (plane : Z)
| AImage_getPlanePixelStride (image : pointer) (plane : Z)
| AImage_delete (image : pointer)
| ACameraMetadata_free (id : string)
| ACameraManager_deleteCameraIdList.

(** What a call leaves behind: its status, the pointer it wrote through its
    out-parameter and the integer it wrote, whichever the call has. *)
Record Reply := { status : Z; out : pointer; value : Z }.

(** One entry of ACAMERA_SCALER_AVAILABLE_STREAM_CONFIGURATIONS: four
    consecutive int32 of the array, in the order the loop reads them. *)
Record StreamConfiguration := {
  sc_format : Z;
  sc_width : Z;
  sc_height : Z;
  sc_input : Z
}.

Record ACameraMetadata := {
  sensor_orientation : Z;
  lens_facing : Z;
  stream_configurations : list StreamConfiguration
}.

(** The two conversion routines of the host library. *)
Inductive YuvCopy :=
| copy_yuv_with_rotation (y u v : pointer) (rot w h y_stride u_stride v_stride : Z)
| copy_ycbcrbiplanar_to_true_yuv_with_rotation_and_down_scale_by_2
    (y cbcr : pointer) (rot w h y_stride cbcr_stride : Z) (uFirstvSecond down_scale : bool).

(** The platform and the host as the plugin sees them: a world that answers
    calls.  The constants come from the NDK headers. *)
Class Ndk (W : Type) := {
  ACAMERA_OK : Z;
  AMEDIA_OK : Z;
  ACAMERA_LENS_FACING_BACK : Z;
  AIMAGE_FORMAT_YUV_420_888 : Z;
  TEMPLATE_RECORD : Z;
  ndk_reply : W -> NdkCall -> W * Reply;
  ACameraManager_getCameraIdList : W -> Z * list string;
  ACameraManager_getCameraCharacteristics : W -> string -> Z * ACameraMetadata;
  ms_video_capture_new_frame : W -> Z -> W * bool;
  ms_video_init_framerate_controller : W -> W;
  ms_video_update_average_fps : W -> Z -> W;
  yuv_copy : W -> YuvCopy -> W * option mblk_t
}.

(** ** Observable events *)

Inductive Level := Message | Warning | Error.

Inductive Event :=
| Log (l : Level) (text : string)
| Call (c : NdkCall)
| Freemsg (m : mblk_t)
| QueuePut (m : mblk_t) (timestamp : Z)
| Notify (size : MSVideoSize).

(** ** The state and error monad of the plugin's code *)

(** [Fault] is a null-pointer dereference: the execution is undefined. *)
Inductive outcome (A : Type) : Type :=
| Done (a : A)
| Fault.
Arguments Done {A} a.
Arguments Fault {A}.

(** The object a function works on, the world behind the platform interface
    and the events so far, most recent first. *)
Record Machine (S W : Type) := {
  state : S;
  world : W;
  trace : list Event
}.
Arguments state {S W} m.
Arguments world {S W} m.
Arguments trace {S W} m.

Definition M (S W A : Type) : Type := Machine S W -> outcome (A * Machine S W).

Definition ret {S W A} (a : A) : M S W A := fun m => Done (a, m).

Definition bind {S W A B} (c : M S W A) (k : A -> M S W B) : M S W B :=
  fun m => match c m with
           | Done (a, m') => k a m'
           | Fault => Fault
           end.

Notation "x <- c ;; k" := (bind c (fun x => k))
  (at level 61, c at next level, right associativity).
Notation "c ;; k" := (bind c (fun _ => k))
  (at level 61, right associativity).

Definition get {S W} : M S W S := fun m => Done (state m, m).

Definition modify {S W} (f : S -> S) : M S W unit :=
  fun m => Done (tt, {| state := f (state m); world := world m; trace := trace m |}).

Definition emit {S W} (e : Event) : M S W unit :=
  fun m => Done (tt, {| state := state m; world := world m; trace := e :: trace m |}).

Definition log {S W} (l : Level) (text : string) : M S W unit := emit (Log l text).

Definition fault {S W A} : M S W A := fun _ => Fault.

(** Reading through a pointer. *)
Definition deref {S W A} (p : option A) : M S W A :=
  match p with
  | Some a => ret a
  | None => fault
  end.

Definition when {S W} (b : bool) (c : M S W unit) : M S W unit :=
  if b then c else ret tt.

(** The events in the order they happened. *)
Definition history {S W} (m : Machine S W) : list Event := rev (trace m).

Definition is_call (e : Event) : bool :=
  match e with Call _ => true | _ => false end.

(** The platform calls among some events. *)
Definition calls (l : list Event) : list Event := List.filter is_call l.

Section Plugin.

Context {W : Type} {P : Ndk W}.

(** A platform call: recorded, then answered by the world. *)
Definition ndk {S} (c : NdkCall) : M S W Reply :=
  fun m => let (w, r) := ndk_reply (world m) c in
           Done (r, {| state := state m; world := w; trace := Call c :: trace m |}).

Definition ndk_ {S} (c : NdkCall) : M S W unit := _ <- ndk c ;; ret tt.

Definition host {S A} (f : W -> W * A) : M S W A :=
  fun m => let (w, a) := f (world m) in
           Done (a, {| state := state m; world := w; trace := trace m |}).

Definition ask {S A} (f : W -> A) : M S W A := fun m => Done (f (world m), m).

(** Code that works on the filter's context. *)
Definition Filter : Type -> Type := M AndroidCamera2Context W.

(** *** The context's constructor *)

Definition AndroidCamera2Context_new (f : option MSFilter) : AndroidCamera2Context :=
  {| filter := f; capturing := false; device := None; rotation := 0;
     captureSize := {| width := 0; height := 0 |};
     captureFormat := AIMAGE_FORMAT_YUV_420_888;
     frame := None;
     cameraDevice := nullptr; captureSession := nullptr;
     captureSessionOutputContainer := nullptr;
     captureWindow := nullptr; captureRequest := nullptr;
     cameraCaptureOutputTarget := nullptr;
     sessionCaptureOutput := nullptr; imageReader := nullptr |}.

(** *** Orientation *)

(** The arithmetic of [android_camera2_capture_get_orientation]: [%] is C's
    remainder, which truncates towards zero. *)
Definition get_orientation (dev : AndroidCamera2Device) (rot : Z) : Z :=
  let o := orientation dev in
  let o := if back_facing dev then sub32 o rot else add32 o rot in
  let o := if o <? 0 then add32 o 360 else o in
  Z.rem o 360.

Definition android_camera2_capture_get_orientation : Filter Z :=
  d <- get ;;
  dev <- deref (device d) ;;
  ret (get_orientation dev (rotation d)).

(** The size swap at the head of [android_camera2_capture_image_to_mblkt]. *)
Definition image_size (orientation w h : Z) : Z * Z :=
  if negb (Z.rem orientation 180 =? 0) then (h, w) else (w, h).

Definition android_camera2_capture_image_to_mblkt (image : pointer) : Filter (option mblk_t) :=
  orientation <- android_camera2_capture_get_orientation ;;
  rw <- ndk (AImage_getWidth image) ;;
  rh <- ndk (AImage_getHeight image) ;;
  let (width, height) := image_size orientation (value rw) (value rh) in
  yStride <- ndk (AImage_getPlaneRowStride image 0) ;;
  uvStride <- ndk (AImage_getPlaneRowStride image 1) ;;
  yPixel <- ndk (AImage_getPlaneData image 0) ;;
  uPixel <- ndk (AImage_getPlaneData image 1) ;;
  vPixel <- ndk (AImage_getPlaneData image 2) ;;
  yPixelStride <- ndk (AImage_getPlanePixelStride image 0) ;;
  uvPixelStride <- ndk (AImage_getPlanePixelStride image 1) ;;
  log Message "Image %p size %d/%d, y is %p, u is %p, v is %p, ystride %d, uvstride %d, ypixelstride %d, uvpixelstride %d" ;;
  if value uvPixelStride =? 1 then
    host (fun w => yuv_copy w
      (copy_yuv_with_rotation (out yPixel) (out uPixel) (out vPixel) orientation
         width height (value yStride) (value uvStride) (value uvStride)))
  else
    host (fun w => yuv_copy w
      (copy_ycbcrbiplanar_to_true_yuv_with_rotation_and_down_scale_by_2 (out yPixel)
         (if out vPixel <? out uPixel then out vPixel else out uPixel)
         orientation width height (value yStride) (value uvStride)
         (out uPixel <? out vPixel) false)).

(** *** The frame slot *)

(** The locked region of the image callback: the frame held is freed and the
    new one takes its place. *)
Definition store_frame (m : mblk_t) : Filter unit :=
  d <- get ;;
  match frame d with
  | Some old => emit (Freemsg old)
  | None => ret tt
  end ;;
  modify (set_frame (Some m)).

(** [d->filter == nullptr && d->filter->ticker == nullptr]: the right operand
    is evaluated only when the left one holds, and it reads through
    [d->filter]. *)
Definition filter_destroyed : Filter bool :=
  d <- get ;;
  if match filter d with None => true | Some _ => false end then
    f <- deref (filter d) ;;
    ret (match ticker f with None => true | Some _ => false end)
  else ret false.

Definition android_camera2_capture_on_image_available (reader : pointer) : Filter unit :=
  d <- get ;;
  format <- ndk (AImageReader_getFormat reader) ;;
  if value format =? captureFormat d then
    acquired <- ndk (AImageReader_acquireNextImage reader) ;;
    let image := out acquired in
    if status acquired =? AMEDIA_OK then
      d <- get ;;
      if capturing d then
        _ <- deref (filter d) ;;                     (* ms_filter_lock(d->filter) *)
        destroyed <- filter_destroyed ;;
        if destroyed then
          log Error "Filter destroyed, we shouldn't be here !"
        else
          f <- deref (filter d) ;;
          t <- deref (ticker f) ;;
          fresh <- host (fun w => ms_video_capture_new_frame w (time t)) ;;
          (if fresh then
             m <- android_camera2_capture_image_to_mblkt image ;;
             match m with
             | Some m => store_frame m
             | None => ret tt
             end
           else ret tt) ;;
          ndk_ (AImage_delete image)
      else
        ndk_ (AImage_delete image)
    else
      log Error "Couldn't acquire image"
  else
    log Error "Aquired image is in wrong format %d, expected %d".

(** *** Opening and closing the camera *)

Definition android_camera2_capture_open_camera : Filter unit :=
  log Message "Opening camera" ;;
  d <- get ;;
  match device d with
  | None => log Error "Can't open camera, no device selected"
  | Some dev =>
      cameraManager <- ndk ACameraManager_create ;;
      log Message "Opening camera %s" ;;
      opened <- ndk (ACameraManager_openCamera (out cameraManager) (camId dev)) ;;
      if negb (status opened =? ACAMERA_OK) then
        log Error "Failed to open camera %s"
      else
        modify (set_cameraDevice (out opened)) ;;
        ndk_ (ACameraManager_delete (out cameraManager))
  end.

Definition android_camera2_capture_close_camera : Filter unit :=
  log Message "Closing camera" ;;
  d <- get ;;
  if negb (is_null (cameraDevice d)) then
    closed <- ndk (ACameraDevice_close (cameraDevice d)) ;;
    _ <- deref (device d) ;;                          (* d->device->camId *)
    (if negb (status closed =? ACAMERA_OK) then
       log Error "Failed to close camera %s"
     else
       log Message "Camera closed %s") ;;
    modify (set_cameraDevice nullptr)
  else ret tt.

(** *** Starting and stopping the capture *)

Definition android_camera2_capture_start : Filter unit :=
  log Message "Starting capture" ;;
  d <- get ;;
  if (width (captureSize d) =? 0) || (height (captureSize d) =? 0) then
    log Warning "Filter hasn't been fully configured yet, don't start"
  else if capturing d then
    log Warning "Capture was already started, ignoring..."
  else
    when (is_null (cameraDevice d)) android_camera2_capture_open_camera ;;
    d <- get ;;
    container <- ndk (ACaptureSessionOutputContainer_create (captureSessionOutputContainer d)) ;;
    modify (set_captureSessionOutputContainer (out container)) ;;
    d <- get ;;
    reader <- ndk (AImageReader_new (width (captureSize d)) (height (captureSize d))
                     (captureFormat d) 1 (imageReader d)) ;;
    modify (set_imageReader (out reader)) ;;
    if negb (status reader =? AMEDIA_OK) then
      log Error "Failed to create image reader"
    else
      d <- get ;;
      ndk_ (AImageReader_setImageListener (imageReader d)) ;;
      log Message "Image reader created" ;;
      window <- ndk (AImageReader_getWindow (imageReader d) (captureWindow d)) ;;
      modify (set_captureWindow (out window)) ;;
      if negb (status window =? AMEDIA_OK) then
        log Error "Capture window couldn't be acquired"
      else
        d <- get ;;
        ndk_ (ANativeWindow_acquire (captureWindow d)) ;;
        log Message "Capture window acquired" ;;
        target <- ndk (ACameraOutputTarget_create (captureWindow d)
                         (cameraCaptureOutputTarget d)) ;;
        modify (set_cameraCaptureOutputTarget (out target)) ;;
        d <- get ;;
        request <- ndk (ACameraDevice_createCaptureRequest (cameraDevice d) TEMPLATE_RECORD
                          (captureRequest d)) ;;
        modify (set_captureRequest (out request)) ;;
        when (negb (status request =? ACAMERA_OK))
          (log Error "Failed to create capture request") ;;
        d <- get ;;
        ndk_ (ACaptureRequest_addTarget (captureRequest d) (cameraCaptureOutputTarget d)) ;;
        output <- ndk (ACaptureSessionOutput_create (captureWindow d)
                         (sessionCaptureOutput d)) ;;
        modify (set_sessionCaptureOutput (out output)) ;;
        d <- get ;;
        ndk_ (ACaptureSessionOutputContainer_add (captureSessionOutputContainer d)
                (sessionCaptureOutput d)) ;;
        ndk_ (ACameraCaptureSession_setRepeatingRequest (captureSession d) 1
                (captureRequest d)) ;;
        modify (set_capturing true) ;;
        log Message "Capture started".

Definition android_camera2_capture_stop : Filter unit :=
  log Message "Stopping capture" ;;
  d <- get ;;
  if negb (capturing d) then
    log Warning "Capture was already stopped, ignoring..."
  else
    modify (set_capturing false) ;;
    d <- get ;;
    when (negb (is_null (captureSession d)))
      (ndk_ (ACameraCaptureSession_stopRepeating (captureSession d)) ;;
       ndk_ (ACameraCaptureSession_close (captureSession d)) ;;
       modify (set_captureSession nullptr)) ;;
    d <- get ;;
    when (negb (is_null (cameraCaptureOutputTarget d)))
      (ndk_ (ACameraOutputTarget_free (cameraCaptureOutputTarget d)) ;;
       modify (set_cameraCaptureOutputTarget nullptr)) ;;
    d <- get ;;
    when (negb (is_null (captureRequest d)))
      (ndk_ (ACaptureRequest_free (captureRequest d)) ;;
       modify (set_captureRequest nullptr)) ;;
    d <- get ;;
    when (negb (is_null (captureSessionOutputContainer d)))
      (ndk_ (ACaptureSessionOutputContainer_remove (captureSessionOutputContainer d)
               (sessionCaptureOutput d))) ;;
    d <- get ;;
    when (negb (is_null (sessionCaptureOutput d)))
      (ndk_ (ACaptureSessionOutput_free (sessionCaptureOutput d)) ;;
       modify (set_sessionCaptureOutput nullptr)) ;;
    d <- get ;;
    when (negb (is_null (captureWindow d)))
      (ndk_ (ANativeWindow_release (captureWindow d)) ;;
       modify (set_captureWindow nullptr)) ;;
    d <- get ;;
    when (negb (is_null (imageReader d)))
      (ndk_ (AImageReader_delete (imageReader d)) ;;
       modify (set_imageReader nullptr)) ;;
    d <- get ;;
    when (negb (is_null (captureSessionOutputContainer d)))
      (ndk_ (ACaptureSessionOutputContainer_free (captureSessionOutputContainer d)) ;;
       modify (set_captureSessionOutputContainer nullptr)) ;;
    android_camera2_capture_close_camera ;;
    log Message "Capture stopped".

(** *** The filter's hooks *)

Definition android_camera2_capture_preprocess : Filter unit :=
  log Message "Filter preprocess" ;;
  d <- get ;;
  when (negb (width (captureSize d) =? 0) && negb (height (captureSize d) =? 0)
        && negb (capturing d))
    android_camera2_capture_start ;;
  host (fun w => (ms_video_init_framerate_controller w, tt)).

Definition android_camera2_capture_process : Filter unit :=
  d <- get ;;
  match frame d with
  | Some m =>
      f <- deref (filter d) ;;
      t <- deref (ticker f) ;;
      host (fun w => (ms_video_update_average_fps w (time t), tt)) ;;
      emit (QueuePut m (time t * 90)) ;;
      modify (set_frame None)
  | None => ret tt
  end.

Definition android_camera2_capture_postprocess : Filter unit :=
  log Message "Filter postprocess" ;;
  d <- get ;;
  when (capturing d) android_camera2_capture_stop.

(** *** The filter's methods *)

Definition android_camera2_capture_set_fps : Filter Z :=
  host (fun w => (ms_video_init_framerate_controller w, tt)) ;;
  ret 0.

Record Backup := { backupSize : MSVideoSize; found : bool }.

(** One turn of the loop over the stream configurations.  The products are
    int multiplications; a double holds an int32 and the difference of two
    of them exactly, so [fabs] and [<] compare integers. *)
Definition choose_step (format askedRatio : Z) (asked : MSVideoSize)
    (b : Backup) (c : StreamConfiguration) : Backup :=
  if negb (sc_input c =? 0) then b
  else if sc_format c =? format then
    let currentSizeRatio := mul32 (sc_width c) (sc_height c) in
    if (sc_width c =? width asked) && (sc_height c =? height asked) then
      {| backupSize := backupSize b; found := true |}
    else
      let backupRatio := mul32 (width (backupSize b)) (height (backupSize b)) in
      if (backupRatio =? 0)
         || (Z.abs (askedRatio - currentSizeRatio) <? Z.abs (askedRatio - backupRatio))
      then {| backupSize := {| width := sc_width c; height := sc_height c |};
              found := found b |}
      else b
  else b.

Definition choose_loop (format : Z) (asked : MSVideoSize)
    (l : list StreamConfiguration) : Backup :=
  fold_left (choose_step format (mul32 (width asked) (height asked)) asked) l
    {| backupSize := {| width := 0; height := 0 |}; found := false |}.

(** The size the configuration ends with. *)
Definition choose_size (format : Z) (asked : MSVideoSize)
    (l : list StreamConfiguration) : MSVideoSize :=
  let b := choose_loop format asked l in
  if found b then asked else backupSize b.

(** The message the loop prints for every output entry of the format. *)
Definition choose_messages (format : Z) (l : list StreamConfiguration) : list Event :=
  map (fun _ => Log Message "Available size width %d, height %d for requested format %d")
    (List.filter (fun c => (sc_input c =? 0) && (sc_format c =? format)) l).

Definition emit_all {S} (l : list Event) : M S W unit :=
  fun m => Done (tt, {| state := state m; world := world m; trace := rev l ++ trace m |}).

(** The statuses of the two metadata calls are not looked at: the loop runs
    over whatever the entry holds. *)
Definition android_camera2_capture_choose_best_configurations : Filter unit :=
  d <- get ;;
  dev <- deref (device d) ;;                          (* d->device->camId *)
  log Message "Listing camera %s configurations" ;;
  ndk_ ACameraManager_create ;;
  metadata <- ask (fun w => snd (ACameraManager_getCameraCharacteristics w (camId dev))) ;;
  let scaler := stream_configurations metadata in
  emit_all (choose_messages (captureFormat d) scaler) ;;
  if found (choose_loop (captureFormat d) (captureSize d) scaler) then
    log Message "Found exact match for our required size of %ix%i"
  else
    modify (set_captureSize (backupSize (choose_loop (captureFormat d) (captureSize d) scaler))) ;;
    log Warning "Couldn't find requested resolution, instead using %ix%i".

Definition android_camera2_capture_set_vsize (requestedSize : MSVideoSize) : Filter Z :=
  d <- get ;;
  log Message "Current preview size is %i/%i, new size will be %i/%i" ;;
  if (width (captureSize d) =? width requestedSize)
     && (height (captureSize d) =? height requestedSize) then
    ret (-1)
  else
    modify (set_captureSize requestedSize) ;;
    android_camera2_capture_stop ;;
    android_camera2_capture_choose_best_configurations ;;
    android_camera2_capture_start ;;
    d <- get ;;
    emit (Notify (captureSize d)) ;;
    ret 0.

Definition android_camera2_capture_get_vsize : Filter MSVideoSize :=
  d <- get ;;
  orientation <- android_camera2_capture_get_orientation ;;
  let size :=
    if Z.rem orientation 180 =? 0 then
      {| width := width (captureSize d); height := height (captureSize d) |}
    else
      {| width := height (captureSize d); height := width (captureSize d) |} in
  log Message "Getting preview size: %i/%i" ;;
  ret size.

Definition android_camera2_capture_set_device_rotation (arg : Z) : Filter Z :=
  modify (set_rotation arg) ;;
  log Message "Device rotation is %i" ;;
  ret 0.

(** [android_camera2_capture_init]: a filter made from the description
    alone has no device. *)
Definition android_camera2_capture_init (f : option MSFilter) (w : W)
  : Machine AndroidCamera2Context W :=
  {| state := AndroidCamera2Context_new f; world := w;
     trace := [Log Message "Filter init"] |}.

(** [android_camera2_capture_create_reader]: the filter is made, then the
    device of the web camera is bound to it. *)
Definition android_camera2_capture_create_reader (dev : AndroidCamera2Device)
    (f : option MSFilter) (w : W) : Machine AndroidCamera2Context W :=
  {| state := set_device (Some dev) (AndroidCamera2Context_new f); world := w;
     trace := [Log Message "Filter init"; Log Message "Creating filter for camera %s"] |}.

End Plugin.

Arguments Filter : clear implicits.

(** ** Detection of the cameras *)

Record MSWebCam := {
  cam_id : string;
  cam_name : string;
  cam_data : AndroidCamera2Device
}.

Record MSWebCamManager := { cams : list MSWebCam }.

(** The host's [ms_web_cam_manager_prepend_cam] puts the camera at the head
    of the manager's list. *)
Definition ms_web_cam_manager_prepend_cam (obj : MSWebCamManager) (cam : MSWebCam)
  : MSWebCamManager :=
  {| cams := cam :: cams obj |}.

(** [snprintf] with size [n] keeps at most [n - 1] characters. *)
Definition snprintf (n : nat) (s : string) : string := substring 0 (n - 1) s.

Section Detect.

Context {W : Type} {P : Ndk W}.

Definition Manager : Type -> Type := M MSWebCamManager W.

(** One turn of the loop over the camera ids; the two flags are
    [front_facing_found] and [back_facing_found]. *)
Definition detect_camera (id : string) (flags : bool * bool) : Manager (bool * bool) :=
  let (front_facing_found, back_facing_found) := flags in
  characteristics <- ask (fun w => ACameraManager_getCameraCharacteristics w id) ;;
  if negb (fst characteristics =? ACAMERA_OK) then
    log Error "Failed to get camera %s characteristics" ;;
    ret flags
  else
    let cameraMetadata := snd characteristics in
    let angle := sensor_orientation cameraMetadata in
    let back := lens_facing cameraMetadata =? ACAMERA_LENS_FACING_BACK in
    let facing := if negb back then "front" else "back" in
    log Message "Camera %s is facing %s with angle %d" ;;
    let device := {| camId := id; orientation := angle; back_facing := back |} in
    let idstring := snprintf 26 ("Camera2Device" ++ id ++ "Facing" ++ facing)%string in
    let cam := {| cam_id := idstring; cam_name := idstring; cam_data := device |} in
    flags' <-
      (if (back && negb back_facing_found) || (negb back && negb front_facing_found) then
         modify (fun obj => ms_web_cam_manager_prepend_cam obj cam) ;;
         ret (if back then (front_facing_found, true) else (true, back_facing_found))
       else
         log Warning "A camera with the same direction as already been added, skipping this one" ;;
         ret flags) ;;
    ndk_ (ACameraMetadata_free id) ;;
    ret flags'.

Fixpoint detect_loop (ids : list string) (flags : bool * bool) : Manager unit :=
  match ids with
  | [] => ret tt
  | id :: rest =>
      flags' <- detect_camera id flags ;;
      detect_loop rest flags'
  end.

Definition android_camera2_capture_detect : Manager unit :=
  log Message "Detecting cameras" ;;
  cameraManager <- ndk ACameraManager_create ;;
  cameraIdList <- ask ACameraManager_getCameraIdList ;;
  if negb (fst cameraIdList =? ACAMERA_OK) then
    log Error "Failed to get camera(s) list : %d"
  else if Z.of_nat (List.length (snd cameraIdList)) <? 1 then
    log Warning "No camera detected, check you have granted CAMERA permission !"
  else
    detect_loop (snd cameraIdList) (false, false) ;;
    ndk_ ACameraManager_deleteCameraIdList ;;
    ndk_ (ACameraManager_delete (out cameraManager)).

End Detect.

(** ** The operations a host can run on a filter *)

Inductive Op :=
| Preprocess
| Process
| Postprocess
| Start
| Stop
| SetFps
| SetVsize (size : MSVideoSize)
| GetVsize
| SetDeviceRotation (degrees : Z)
| ImageAvailable (reader : pointer)
| Ticker (t : option MSTicker).

Section Run.

Context {W : Type} {P : Ndk W}.

(** The host attaches, advances or detaches the ticker of the filter. *)
Definition host_ticker (t : option MSTicker) : Filter W unit :=
  modify (fun d => match filter d with
                   | Some _ => set_filter (Some {| ticker := t |}) d
                   | None => d
                   end).

Definition step (op : Op) : Filter W unit :=
  match op with
  | Preprocess => android_camera2_capture_preprocess
  | Process => android_camera2_capture_process
  | Postprocess => android_camera2_capture_postprocess
  | Start => android_camera2_capture_start
  | Stop => android_camera2_capture_stop
  | SetFps => _ <- android_camera2_capture_set_fps ;; ret tt
  | SetVsize size => _ <- android_camera2_capture_set_vsize size ;; ret tt
  | GetVsize => _ <- android_camera2_capture_get_vsize ;; ret tt
  | SetDeviceRotation degrees =>
      _ <- android_camera2_capture_set_device_rotation degrees ;; ret tt
  | ImageAvailable reader => android_camera2_capture_on_image_available reader
  | Ticker t => host_ticker t
  end.

Fixpoint run (ops : list Op) : Filter W unit :=
  match ops with
  | [] => ret tt
  | op :: rest => step op ;; run rest
  end.

End Run.

(** ** A scripted platform

    A world whose answers are fixed in advance: which calls fail, what the
    cameras are, whether the frame-rate controller lets a frame through.
    Created objects get fresh addresses. *)

Module Mock.

Record World := {
  next_address : Z;
  next_block : nat;
  open_status : Z;
  reader_status : Z;
  window_status : Z;
  request_status : Z;
  id_list_status : Z;
  cameras : list (string * (Z * ACameraMetadata));
  image_format : Z;
  accept_frame : bool
}.

Definition fresh_address (w : World) : World :=
  {| next_address := next_address w + 1; next_block := next_block w;
     open_status := open_status w; reader_status := reader_status w;
     window_status := window_status w; request_status := request_status w;
     id_list_status := id_list_status w; cameras := cameras w;
     image_format := image_format w; accept_frame := accept_frame w |}.

Definition fresh_block (w : World) : World :=
  {| next_address := next_address w; next_block := S (next_block w);
     open_status := open_status w; reader_status := reader_status w;
     window_status := window_status w; request_status := request_status w;
     id_list_status := id_list_status w; cameras := cameras w;
     image_format := image_format w; accept_frame := accept_frame w |}.

(** A call that creates an object: on success the object is new, on failure
    the out-parameter is null. *)
Definition create (w : World) (st : Z) : World * Reply :=
  if st =? 0 then (fresh_address w, {| status := 0; out := next_address w; value := 0 |})
  else (w, {| status := st; out := nullptr; value := 0 |}).

Definition answer (w : World) (v : Z) : World * Reply :=
  (w, {| status := 0; out := nullptr; value := v |}).

Definition reply (w : World) (c : NdkCall) : World * Reply :=
  match c with
  | ACameraManager_create => create w 0
  | ACameraManager_openCamera _ _ => create w (open_status w)
  | ACaptureSessionOutputContainer_create _ => create w 0
  | AImageReader_new _ _ _ _ _ => create w (reader_status w)
  | AImageReader_getWindow _ _ => create w (window_status w)
  | ACameraOutputTarget_create _ _ => create w 0
  | ACameraDevice_createCaptureRequest _ _ _ => create w (request_status w)
  | ACaptureSessionOutput_create _ _ => create w 0
  | AImageReader_acquireNextImage _ => create w 0
  | AImageReader_getFormat _ => answer w (image_format w)
  | AImage_getWidth _ => answer w 640
  | AImage_getHeight _ => answer w 480
  | AImage_getPlaneRowStride _ plane => answer w (if plane =? 0 then 640 else 320)
  | AImage_getPlaneData _ _ => create w 0
  | AImage_getPlanePixelStride _ _ => answer w 1
  | _ => answer w 0
  end.

Fixpoint lookup (id : string) (l : list (string * (Z * ACameraMetadata)))
  : Z * ACameraMetadata :=
  match l with
  | [] => (-1, {| sensor_orientation := 0; lens_facing := 0; stream_configurations := [] |})
  | (k, v) :: rest => if String.eqb k id then v else lookup id rest
  end.

#[global] Instance platform : Ndk World := {
  ACAMERA_OK := 0;
  AMEDIA_OK := 0;
  ACAMERA_LENS_FACING_BACK := 1;
  AIMAGE_FORMAT_YUV_420_888 := 35;
  TEMPLATE_RECORD := 3;
  ndk_reply := reply;
  ACameraManager_getCameraIdList := fun w => (id_list_status w, map fst (cameras w));
  ACameraManager_getCameraCharacteristics := fun w id => lookup id (cameras w);
  ms_video_capture_new_frame := fun w _ => (w, accept_frame w);
  ms_video_init_framerate_controller := fun w => w;
  ms_video_update_average_fps := fun w _ => w;
  yuv_copy := fun w _ => (fresh_block w, Some (next_block w))
}.

Definition camera (facing angle : Z) (l : list StreamConfiguration) : Z * ACameraMetadata :=
  (0, {| sensor_orientation := angle; lens_facing := facing; stream_configurations := l |}).

Definition yuv (w h : Z) : StreamConfiguration :=
  {| sc_format := 35; sc_width := w; sc_height := h; sc_input := 0 |}.

(** Two cameras, the back one first, each offering three sizes. *)
Definition phone : World :=
  {| next_address := 4096; next_block := 0%nat;
     open_status := 0; reader_status := 0; window_status := 0; request_status := 0;
     id_list_status := 0;
     cameras := [ ("0", camera 1 90 [yuv 1280 720; yuv 640 480; yuv 320 240]);
                  ("1", camera 0 270 [yuv 1280 720; yuv 640 480; yuv 320 240]) ];
     image_format := 35; accept_frame := true |}.

Definition back_camera : AndroidCamera2Device :=
  {| camId := "0"; orientation := 90; back_facing := true |}.

Definition front_camera : AndroidCamera2Device :=
  {| camId := "1"; orientation := 270; back_facing := false |}.

Definition ticking : option MSFilter := Some {| ticker := Some {| time := 1000 |} |}.

End Mock.

(** ** What the specification says, in the terms of the model *)

(** The effective orientation as the specification words it. *)
Definition effective_orientation (dev : AndroidCamera2Device) (rot : Z) : Z :=
  (if back_facing dev then orientation dev - rot else orientation dev + rot) mod 360.

(** The orientation property as the specification states it, for one device,
    one rotation hint. *)
Definition orientation_as_specified (dev : AndroidCamera2Device) (rot : Z) : Prop :=
  let e := get_orientation dev rot in
  e = effective_orientation dev rot /\
  0 <= e < 360 /\
  forall w h, w <> h -> (image_size e w h = (h, w) <-> e = 90 \/ e = 270).

Definition transpose (s : MSVideoSize) : MSVideoSize :=
  {| width := height s; height := width s |}.

(** The output entries of the capture format, in the platform's order: the
    sizes the negotiation chooses from. *)
Definition is_candidate (format : Z) (c : StreamConfiguration) : bool :=
  (sc_input c =? 0) && (sc_format c =? format).

Definition size_of (c : StreamConfiguration) : MSVideoSize :=
  {| width := sc_width c; height := sc_height c |}.

Definition candidates (format : Z) (l : list StreamConfiguration) : list MSVideoSize :=
  map size_of (List.filter (is_candidate format) l).

Definition area (s : MSVideoSize) : Z := width s * height s.

Definition distance (asked s : MSVideoSize) : Z := Z.abs (area asked - area s).

(** [s] is the first of the sizes of [l] that are closest to [asked]. *)
Definition first_closest (asked : MSVideoSize) (l : list MSVideoSize) (s : MSVideoSize)
  : Prop :=
  exists before after,
    l = before ++ s :: after /\
    (forall c, In c before -> distance asked s < distance asked c) /\
    (forall c, In c after -> distance asked s <= distance asked c).

(** The negotiation as the specification states it. *)
Definition negotiation_as_specified (format : Z) (asked : MSVideoSize)
    (l : list StreamConfiguration) : Prop :=
  (In asked (candidates format l) -> choose_size format asked l = asked) /\
  (~ In asked (candidates format l) -> candidates format l <> [] ->
   first_closest asked (candidates format l) (choose_size format asked l)).

Section Offered.

Context {W : Type} {P : Ndk W}.

(** The configurations the loop of [choose_best_configurations] runs over:
    the manager is created first, then the characteristics are read. *)
Definition offered (m : Machine AndroidCamera2Context W) (dev : AndroidCamera2Device)
  : list StreamConfiguration :=
  stream_configurations
    (snd (ACameraManager_getCameraCharacteristics
            (fst (ndk_reply (world m) ACameraManager_create)) (camId dev))).

End Offered.

(** The context [stop] leaves when the capture was running: nothing is
    capturing and every handle is null. *)
Definition stopped (d : AndroidCamera2Context) : AndroidCamera2Context :=
  {| filter := filter d; capturing := false; device := device d; rotation := rotation d;
     captureSize := captureSize d; captureFormat := captureFormat d; frame := frame d;
     cameraDevice := nullptr; captureSession := nullptr;
     captureSessionOutputContainer := nullptr;
     captureWindow := nullptr; captureRequest := nullptr;
     cameraCaptureOutputTarget := nullptr;
     sessionCaptureOutput := nullptr; imageReader := nullptr |}.

(** An event that is a message or a platform call. *)
Definition log_or_call (e : Event) : Prop :=
  match e with
  | Log _ _ | Call _ => True
  | _ => False
  end.

(** An event that does not involve a capture session: a repeating request
    counts only when the session it names is null. *)
Definition session_free (e : Event) : Prop :=
  match e with
  | Call (ACameraCaptureSession_setRepeatingRequest session _ _) => session = nullptr
  | Call (ACameraCaptureSession_stopRepeating _) => False
  | Call (ACameraCaptureSession_close _) => False
  | _ => True
  end.

(** A repeating request on the null session. *)
Definition null_repeating (e : Event) : Prop :=
  exists request, e = Call (ACameraCaptureSession_setRepeatingRequest nullptr 1 request).

(** What holds of a filter whatever the host runs on it. *)
Definition sessionless (d : AndroidCamera2Context) (t : list Event) : Prop :=
  captureSession d = nullptr /\
  Forall session_free t /\
  (capturing d = true -> Exists null_repeating t).

(** A filter on which no start has been attempted. *)
Definition untouched (d : AndroidCamera2Context) (t : list Event) : Prop :=
  capturing d = false /\ handles_null d /\
  captureSize d = {| width := 0; height := 0 |}.

(** The operations that may run [android_camera2_capture_start]. *)
Definition may_start (op : Op) : bool :=
  match op with
  | Start | SetVsize _ => true
  | _ => false
  end.

Section Invariant.

Context {W : Type} {P : Ndk W}.

(** An invariant: a property of the context and of the events so far. *)
Variable G : AndroidCamera2Context -> list Event -> Prop.

Definition good (m : Machine AndroidCamera2Context W) : Prop := G (state m) (trace m).

(** [c] keeps the invariant whenever it returns. *)
Definition keeps {A} (c : Filter W A) : Prop :=
  forall m a m', good m -> c m = Done (a, m') -> good m'.

End Invariant.

(** Two stops in a row as the specification states them: the second one
    changes nothing, issues no call, and no handle is left. *)
Definition stop_twice_as_specified {W : Type} {P : Ndk W}
    (m : Machine AndroidCamera2Context W) : Prop :=
  exists m1 m2,
    android_camera2_capture_stop m = Done (tt, m1) /\
    android_camera2_capture_stop m1 = Done (tt, m2) /\
    state m2 = state m1 /\ world m2 = world m1 /\
    calls (trace m2) = calls (trace m1) /\
    handles_null (state m2).

(** The error the image callback prints when it finds the filter gone. *)
Definition filter_destroyed_error : Event :=
  Log Error "Filter destroyed, we shouldn't be here !".

(** The events since the trace was [t0] do not include that error. *)
Definition never_destroyed (t0 : list Event) (d : AndroidCamera2Context)
    (t : list Event) : Prop :=
  exists events, t = events ++ t0 /\ ~ In filter_destroyed_error events.

Module MockRuns.

(** A filter made for the back camera of [Mock.phone]. *)
Definition boot (w : Mock.World) : Machine AndroidCamera2Context Mock.World :=
  android_camera2_capture_create_reader Mock.back_camera Mock.ticking w.

(** The same filter once asked for [size], before any negotiation. *)
Definition asking (size : MSVideoSize) (w : Mock.World)
  : Machine AndroidCamera2Context Mock.World :=
  {| state := set_captureSize size (state (boot w)); world := w; trace := trace (boot w) |}.

(** The phone when the camera cannot be opened. *)
Definition busy : Mock.World :=
  {| Mock.next_address := 4096; Mock.next_block := 0%nat;
     Mock.open_status := -10004; Mock.reader_status := 0; Mock.window_status := 0;
     Mock.request_status := -10001; Mock.id_list_status := 0;
     Mock.cameras := Mock.cameras Mock.phone;
     Mock.image_format := 35; Mock.accept_frame := true |}.

(** The phone when no image reader can be made. *)
Definition no_reader : Mock.World :=
  {| Mock.next_address := 4096; Mock.next_block := 0%nat;
     Mock.open_status := 0; Mock.reader_status := -10000; Mock.window_status := 0;
     Mock.request_status := 0; Mock.id_list_status := 0;
     Mock.cameras := Mock.cameras Mock.phone;
     Mock.image_format := 35; Mock.accept_frame := true |}.

(** A phone with four cameras facing back, front, back, back. *)
Definition four_cameras : Mock.World :=
  {| Mock.next_address := 4096; Mock.next_block := 0%nat;
     Mock.open_status := 0; Mock.reader_status := 0; Mock.window_status := 0;
     Mock.request_status := 0; Mock.id_list_status := 0;
     Mock.cameras := [ ("0", Mock.camera 1 90 []); ("1", Mock.camera 0 270 []);
                       ("2", Mock.camera 1 90 []); ("3", Mock.camera 1 90 []) ];
     Mock.image_format := 35; Mock.accept_frame := true |}.

(** A manager with no camera yet, on the phone with four cameras. *)
Definition empty_manager : Machine MSWebCamManager Mock.World :=
  {| state := {| cams := [] |}; world := four_cameras; trace := [] |}.

(** The machine a run ends in, when it ends. *)
Definition after (ops : list Op) (m : Machine AndroidCamera2Context Mock.World)
  : Machine AndroidCamera2Context Mock.World :=
  match run ops m with
  | Done (_, m') => m'
  | Fault => m
  end.

End MockRuns.

(** ** A platform with nothing to offer

    Every call succeeds and returns null, no camera has any configuration,
    and no frame is let through. *)

Module Bare.

#[global] Instance platform : Ndk unit := {
  ACAMERA_OK := 0;
  AMEDIA_OK := 0;
  ACAMERA_LENS_FACING_BACK := 1;
  AIMAGE_FORMAT_YUV_420_888 := 35;
  TEMPLATE_RECORD := 3;
  ndk_reply := fun w _ => (w, {| status := 0; out := nullptr; value := 0 |});
  ACameraManager_getCameraIdList := fun _ => (0, []);
  ACameraManager_getCameraCharacteristics := fun _ _ =>
    (0, {| sensor_orientation := 0; lens_facing := 0; stream_configurations := [] |});
  ms_video_capture_new_frame := fun w _ => (w, false);
  ms_video_init_framerate_controller := fun w => w;
  ms_video_update_average_fps := fun w _ => w;
  yuv_copy := fun w _ => (w, None)
}.

End Bare.

(** ** Detection, in the terms of the specification *)

(** The web camera [detect_camera] makes for a camera. *)
Definition web_cam (id : string) (angle : Z) (back : bool) : MSWebCam :=
  let idstring :=
    snprintf 26 ("Camera2Device" ++ id ++ "Facing" ++ (if back then "back" else "front"))%string in
  {| cam_id := idstring; cam_name := idstring;
     cam_data := {| camId := id; orientation := angle; back_facing := back |} |}.

Definition same_direction_warning : Event :=
  Log Warning "A camera with the same direction as already been added, skipping this one".

(** The warnings and errors among some events. *)
Definition complaints (l : list Event) : list Event :=
  List.filter (fun e => match e with
                        | Log Warning _ | Log Error _ => true
                        | _ => false
                        end) l.

(** [x] comes before [y] in [l], and the rest of [l] is [old]. *)
Definition added_in_order {A} (x y : A) (old l : list A) : Prop :=
  exists l1 l2 l3, l = l1 ++ x :: l2 ++ y :: l3 /\ old = l1 ++ l2 ++ l3.

(** Detection as the specification states it: two cameras are added to the
    manager's list, a back-facing one before a front-facing one. *)
Definition detection_as_specified {W : Type} {P : Ndk W}
    (m : Machine MSWebCamManager W) : Prop :=
  exists m' back front,
    android_camera2_capture_detect m = Done (tt, m') /\
    added_in_order back front (cams (state m)) (cams (state m')) /\
    back_facing (cam_data back) = true /\
    back_facing (cam_data front) = false.

(** What the platform says of a camera does not change with the calls the
    plugin makes. *)
Definition characteristics_stable {W : Type} {P : Ndk W} : Prop :=
  forall w c id,
    ACameraManager_getCameraCharacteristics (fst (ndk_reply w c)) id =
    ACameraManager_getCameraCharacteristics w id.

(** ** The frame slot, in the terms of the specification *)

(** What happens to the slot: the callback stores a frame, the tick drains. *)
Inductive SlotOp :=
| Store (b : mblk_t)
| Drain.

Section Slot.

Context {W : Type} {P : Ndk W}.

Definition slot_step (op : SlotOp) : Filter W unit :=
  match op with
  | Store b => store_frame b
  | Drain => android_camera2_capture_process
  end.

Fixpoint slot_run (ops : list SlotOp) : Filter W unit :=
  match ops with
  | [] => ret tt
  | op :: rest => slot_step op ;; slot_run rest
  end.

End Slot.

(** The frames stored, in order. *)
Fixpoint stored (ops : list SlotOp) : list mblk_t :=
  match ops with
  | [] => []
  | Store b :: rest => b :: stored rest
  | Drain :: rest => stored rest
  end.

(** The frames a latest-wins slot delivers: those whose store is directly
    followed by a drain. *)
Fixpoint delivered (ops : list SlotOp) : list mblk_t :=
  match ops with
  | [] => []
  | op :: rest =>
      match op, rest with
      | Store b, Drain :: _ => b :: delivered rest
      | _, _ => delivered rest
      end
  end.

(** The frames overwritten before a drain: those whose store is directly
    followed by another store. *)
Fixpoint overwritten (ops : list SlotOp) : list mblk_t :=
  match ops with
  | [] => []
  | op :: rest =>
      match op, rest with
      | Store b, Store _ :: _ => b :: overwritten rest
      | _, _ => overwritten rest
      end
  end.

(** The frame left in the slot: the one stored last, if nothing drained it. *)
Fixpoint held (ops : list SlotOp) : option mblk_t :=
  match ops with
  | [] => None
  | op :: rest =>
      match op, rest with
      | Store b, [] => Some b
      | _, _ => held rest
      end
  end.

(** The frames freed and the frames put on the output queue, in the order of
    the events. *)
Definition frees (l : list Event) : list mblk_t :=
  flat_map (fun e => match e with Freemsg b => [b] | _ => [] end) l.

Definition deliveries (l : list Event) : list mblk_t :=
  flat_map (fun e => match e with QueuePut b _ => [b] | _ => [] end) l.

Definition option_list {A} (o : option A) : list A :=
  match o with
  | Some a => [a]
  | None => []
  end.

(** ** What the code shows beyond the specification *)

(** The platform calls among some events, in their order. *)
Definition ndk_calls (l : list Event) : list NdkCall :=
  flat_map (fun e => match e with Call c => [c] | _ => [] end) l.

(** The calls [stop] makes to release what a running capture holds: one
    group per handle that is set, in the order of the source. *)
Definition release_calls (d : AndroidCamera2Context) : list NdkCall :=
  (if is_null (captureSession d) then []
   else [ACameraCaptureSession_stopRepeating (captureSession d);
         ACameraCaptureSession_close (captureSession d)])
  ++ (if is_null (cameraCaptureOutputTarget d) then []
      else [ACameraOutputTarget_free (cameraCaptureOutputTarget d)])
  ++ (if is_null (captureRequest d) then []
      else [ACaptureRequest_free (captureRequest d)])
  ++ (if is_null (captureSessionOutputContainer d) then []
      else [ACaptureSessionOutputContainer_remove (captureSessionOutputContainer d)
              (sessionCaptureOutput d)])
  ++ (if is_null (sessionCaptureOutput d) then []
      else [ACaptureSessionOutput_free (sessionCaptureOutput d)])
  ++ (if is_null (captureWindow d) then []
      else [ANativeWindow_release (captureWindow d)])
  ++ (if is_null (imageReader d) then []
      else [AImageReader_delete (imageReader d)])
  ++ (if is_null (captureSessionOutputContainer d) then []
      else [ACaptureSessionOutputContainer_free (captureSessionOutputContainer d)])
  ++ (if is_null (cameraDevice d) then []
      else [ACameraDevice_close (cameraDevice d)]).

(** The handle a release call is made on. *)
Definition released_handle (c : NdkCall) : pointer :=
  match c with
  | ACameraCaptureSession_stopRepeating p | ACameraCaptureSession_close p
  | ACameraOutputTarget_free p | ACaptureRequest_free p
  | ACaptureSessionOutputContainer_remove p _ | ACaptureSessionOutput_free p
  | ANativeWindow_release p | AImageReader_delete p
  | ACaptureSessionOutputContainer_free p | ACameraDevice_close p => p
  | _ => nullptr
  end.

(** What [start] and [stop] have no business with. *)
Definition configuration (d : AndroidCamera2Context)
  : option MSFilter * option AndroidCamera2Device * Z * MSVideoSize * Z * option mblk_t :=
  (filter d, device d, rotation d, captureSize d, captureFormat d, frame d).

(** Whether an error with this text is among some events. *)
Definition error_logged (text : string) (l : list Event) : bool :=
  existsb (fun e => match e with
                    | Log Error s => String.eqb s text
                    | _ => false
                    end) l.

(** The images deleted among some events, in their order. *)
Definition deletions (l : list Event) : list pointer :=
  flat_map (fun e => match e with Call (AImage_delete p) => [p] | _ => [] end) l.

(** An event that frees, queues or deletes nothing. *)
Definition quiet (e : Event) : Prop :=
  match e with
  | Log _ _ => True
  | Call (AImage_delete _) => False
  | Call _ => True
  | _ => False
  end.

Section Acquired.

Context {W : Type} {P : Ndk W}.

(** What the platform answers the image callback: the format of the reader,
    then the image it hands out. *)
Definition format_reply (m : Machine AndroidCamera2Context W) (reader : pointer) : Reply :=
  snd (ndk_reply (world m) (AImageReader_getFormat reader)).

Definition acquire_reply (m : Machine AndroidCamera2Context W) (reader : pointer) : Reply :=
  snd (ndk_reply (fst (ndk_reply (world m) (AImageReader_getFormat reader)))
         (AImageReader_acquireNextImage reader)).

(** The callback holds an image: the format is the capture format and the
    acquisition succeeded. *)
Definition acquired (m : Machine AndroidCamera2Context W) (reader : pointer) : bool :=
  (value (format_reply m reader) =? captureFormat (state m))
  && (status (acquire_reply m reader) =? AMEDIA_OK).

End Acquired.

(** ** What detection finds *)

Section Described.

Context {W : Type} {P : Ndk W}.

(** The web cameras of the ids the platform describes, in the order of the
    ids. *)
Definition described (w : W) (ids : list string) : list MSWebCam :=
  flat_map (fun id =>
              let characteristics := ACameraManager_getCameraCharacteristics w id in
              if fst characteristics =? ACAMERA_OK then
                [web_cam id (sensor_orientation (snd characteristics))
                   (lens_facing (snd characteristics) =? ACAMERA_LENS_FACING_BACK)]
              else []) ids.

End Described.

(** Whether a web camera faces back ([true]) or front ([false]). *)
Definition faces (back : bool) (c : MSWebCam) : bool :=
  Bool.eqb (back_facing (cam_data c)) back.

(** The first camera of a list, and the first after it that faces the other
    way. *)
Definition first_of_each_facing (l : list MSWebCam) : list MSWebCam :=
  match l with
  | [] => []
  | c :: rest => c :: option_list (find (faces (negb (back_facing (cam_data c)))) rest)
  end.

(** A phone that lists no camera, and a manager on it. *)
Definition no_camera : Machine MSWebCamManager Mock.World :=
  {| state := {| cams := [] |};
     world := {| Mock.next_address := 4096; Mock.next_block := 0%nat;
                 Mock.open_status := 0; Mock.reader_status := 0; Mock.window_status := 0;
                 Mock.request_status := 0; Mock.id_list_status := 0;
                 Mock.cameras := [];
                 Mock.image_format := 35; Mock.accept_frame := true |};
     trace := [] |}.

(** ** The device of a filter *)

(** The filter has the device [dev], and a camera is open only if there is
    a device. *)
Definition bound (dev : option AndroidCamera2Device) (d : AndroidCamera2Context)
    (t : list Event) : Prop :=
  device d = dev /\ (dev <> None \/ cameraDevice d = nullptr).

(** * Proofs *)

(** Symbolic execution of the monad's primitives. *)
Ltac exec :=
  cbv [bind ret get modify emit log fault deref when ndk_ ndk host ask emit_all];
  cbn [state world trace].

Ltac exec_in H :=
  cbv [bind ret get modify emit log fault deref when ndk_ ndk host ask emit_all] in H;
  cbn [state world trace] in H.


(** The events a run adds in front of a trace. *)
Lemma trace_same (t : list Event) : t = [] ++ t.
Proof. reflexivity. Qed.

Lemma trace_more (e : Event) (l events t : list Event) :
  l = events ++ t -> e :: l = (e :: events) ++ t.
Proof. now intros ->. Qed.

Ltac new_events := repeat first [ apply trace_more | apply trace_same ].

(** ** Machine integers *)

Lemma wrap32_id z : int32 z -> wrap32 z = z.
Proof.
  unfold int32, INT32_MIN, INT32_MAX, wrap32. intros Hz.
  rewrite Z.mod_small; lia.
Qed.

(** ** Orientation *)

Section Orientation.

Variables (dev : AndroidCamera2Device) (rot : Z).

Let turned : Z :=
  if back_facing dev then orientation dev - rot else orientation dev + rot.

Hypothesis hint_range : -360 <= turned <= INT32_MAX.

Lemma get_orientation_turned :
  get_orientation dev rot = if turned <? 0 then turned + 360 else Z.rem turned 360.
Proof.
  assert (Hw : wrap32 turned = turned)
    by (apply wrap32_id; unfold int32, INT32_MIN, INT32_MAX in *; lia).
  assert (Hget : get_orientation dev rot =
                 Z.rem (if wrap32 turned <? 0 then add32 (wrap32 turned) 360
                        else wrap32 turned) 360).
  { unfold get_orientation, sub32, add32. subst turned.
    destruct (back_facing dev); reflexivity. }
  rewrite Hget, Hw. unfold add32.
  destruct (Z.ltb_spec0 turned 0) as [Hneg | Hpos]; [ | reflexivity ].
  rewrite wrap32_id by (unfold int32, INT32_MIN, INT32_MAX in *; lia).
  apply Z.rem_small; lia.
Qed.

Lemma get_orientation_mod : get_orientation dev rot = turned mod 360.
Proof.
  rewrite get_orientation_turned.
  destruct (Z.ltb_spec0 turned 0) as [Hneg | Hpos].
  - apply Z.mod_unique with (q := -1); lia.
  - apply Z.rem_mod_nonneg; lia.
Qed.

End Orientation.

(** C4, amended.  For a sensor orientation in [0,360) and a rotation hint
    that keeps the sum (front) or difference (back) between -360 and the
    largest int, the orientation the filter computes is that sum or
    difference modulo 360 and lies in [0,360).  The image size and the size
    [get_vsize] reports are transposed exactly when the orientation is not
    a multiple of 180, which for a multiple of 90 means 90 or 270. *)
Theorem orientation_effective (dev : AndroidCamera2Device) (rot : Z) :
  0 <= orientation dev < 360 ->
  -360 <= (if back_facing dev then orientation dev - rot else orientation dev + rot)
       <= INT32_MAX ->
  get_orientation dev rot = effective_orientation dev rot /\
  0 <= get_orientation dev rot < 360 /\
  (forall w h, w <> h ->
     (image_size (get_orientation dev rot) w h = (h, w) <->
      get_orientation dev rot mod 180 <> 0)) /\
  (get_orientation dev rot mod 90 = 0 ->
     (get_orientation dev rot mod 180 <> 0 <->
      get_orientation dev rot = 90 \/ get_orientation dev rot = 270)) /\
  (forall W (P : Ndk W) (m : Machine AndroidCamera2Context W),
     device (state m) = Some dev -> rotation (state m) = rot ->
     exists size m',
       android_camera2_capture_get_vsize m = Done (size, m') /\
       state m' = state m /\
       (get_orientation dev rot mod 180 = 0 ->
        size = transpose (transpose (captureSize (state m)))) /\
       (get_orientation dev rot mod 180 <> 0 ->
        size = transpose (captureSize (state m)))).
Proof.
  intros Hsensor Hhint.
  pose proof (get_orientation_mod dev rot Hhint) as He.
  assert (Hrange : 0 <= get_orientation dev rot < 360)
    by (rewrite He; apply Z.mod_pos_bound; lia).
  assert (Hrem : forall k, 0 < k ->
            Z.rem (get_orientation dev rot) k = get_orientation dev rot mod k)
    by (intros k Hk; apply Z.rem_mod_nonneg; lia).
  repeat split; try lia.
  - exact He.
  - unfold image_size. rewrite Hrem by lia.
    destruct (Z.eqb_spec (get_orientation dev rot mod 180) 0); cbn; intros Hsz; congruence.
  - unfold image_size. rewrite Hrem by lia. intros Hne.
    destruct (Z.eqb_spec (get_orientation dev rot mod 180) 0); cbn; congruence.
  - intros Hne.
    assert (Hq : get_orientation dev rot = 90 * (get_orientation dev rot / 90))
      by (pose proof (Z.div_mod (get_orientation dev rot) 90); lia).
    assert (Hk : 0 <= get_orientation dev rot / 90 < 4)
      by (split; [ apply Z.div_pos; lia | apply Z.div_lt_upper_bound; lia ]).
    assert (Hc : get_orientation dev rot / 90 = 0 \/ get_orientation dev rot / 90 = 1 \/
                 get_orientation dev rot / 90 = 2 \/ get_orientation dev rot / 90 = 3) by lia.
    destruct Hc as [Hc | [Hc | [Hc | Hc]]]; rewrite Hc in Hq; rewrite Hq in Hne |- *;
      try (left; reflexivity); try (right; reflexivity);
      exfalso; apply Hne; reflexivity.
  - intros [Hq | Hq]; rewrite Hq; discriminate.
  - intros W P m Hdev Hrot.
    unfold android_camera2_capture_get_vsize, android_camera2_capture_get_orientation,
      bind, get, deref, ret, log, emit.
    rewrite Hdev, Hrot. cbn. rewrite Hrem by lia.
    do 2 eexists. split; [ reflexivity | ]. cbn.
    destruct (Z.eqb_spec (get_orientation dev rot mod 180) 0); repeat split;
      intros; try reflexivity; contradiction.
Qed.

Lemma orientation_effective_witness :
  get_orientation Mock.back_camera 270 = effective_orientation Mock.back_camera 270.
Proof.
  refine (proj1 (orientation_effective Mock.back_camera 270 _ _));
    cbn; unfold INT32_MAX; lia.
Defined.

(** C4 as stated fails: a large rotation hint leaves the orientation
    negative, and a hint that is no multiple of 90 transposes the size at an
    orientation that is neither 90 nor 270. *)
Lemma orientation_as_specified_counterexample :
  ~ orientation_as_specified Mock.back_camera 800 /\
  ~ orientation_as_specified Mock.back_camera 45.
Proof.
  split; intros (He & Hrange & Hswap).
  - vm_compute in He. discriminate.
  - destruct (Hswap 640 480) as [H _]; [ lia | ].
    destruct (H eq_refl); discriminate.
Qed.

(** ** Resolution negotiation *)

Section Negotiation.

Variables (format : Z) (asked : MSVideoSize).

Hypothesis asked_area : int32 (area asked).

Let stepf := choose_step format (mul32 (width asked) (height asked)) asked.

(** An output entry of the format with exactly the size asked for. *)
Let matches (c : StreamConfiguration) : bool :=
  is_candidate format c && ((sc_width c =? width asked) && (sc_height c =? height asked)).

(** A size the loop can tell from its empty backup. *)
Let sound (s : MSVideoSize) : Prop := int32 (area s) /\ area s <> 0.

(** What the backup is after the loop has seen the sizes [seen]. *)
Let tracked (seen : list MSVideoSize) (b : MSVideoSize) : Prop :=
  (seen = [] /\ b = {| width := 0; height := 0 |}) \/ first_closest asked seen b.

Lemma size_of_asked c :
  size_of c = asked <-> sc_width c = width asked /\ sc_height c = height asked.
Proof.
  destruct asked as [aw ah]. unfold size_of. cbn. split.
  - intros H. injection H. auto.
  - intros [-> ->]. reflexivity.
Qed.

Lemma matches_spec c :
  matches c = true <-> is_candidate format c = true /\ size_of c = asked.
Proof.
  subst matches. cbn. rewrite size_of_asked, !andb_true_iff, !Z.eqb_eq. tauto.
Qed.

Lemma step_found b c : found (stepf b c) = found b || matches c.
Proof.
  subst stepf matches. unfold choose_step, is_candidate. cbn.
  destruct (sc_input c =? 0); cbn; [ | now rewrite orb_false_r ].
  destruct (sc_format c =? format); cbn; [ | now rewrite orb_false_r ].
  destruct ((sc_width c =? width asked) && (sc_height c =? height asked)); cbn.
  - now rewrite orb_true_r.
  - rewrite orb_false_r.
    now destruct ((mul32 _ _ =? 0) || _).
Qed.

Lemma fold_found l : forall b,
  found (fold_left stepf l b) = found b || existsb matches l.
Proof.
  induction l as [ | c l IH ]; intros b; cbn.
  - now rewrite orb_false_r.
  - now rewrite IH, step_found, orb_assoc.
Qed.

Lemma in_candidates_matches l :
  In asked (candidates format l) <-> existsb matches l = true.
Proof.
  unfold candidates. rewrite in_map_iff, existsb_exists. split.
  - intros (c & Hc & Hin). apply filter_In in Hin. exists c. split; [ tauto | ].
    apply matches_spec. tauto.
  - intros (c & Hin & Hc). apply matches_spec in Hc. exists c. split; [ tauto | ].
    apply filter_In. tauto.
Qed.

Lemma first_closest_in l s : first_closest asked l s -> In s l.
Proof.
  intros (before & after & -> & _). apply in_or_app. right. now left.
Qed.

(** An entry the loop skips, or one that is no exact match, leaves the
    backup the first closest of the sizes seen. *)
Lemma step_tracked seen b c :
  matches c = false ->
  Forall sound (seen ++ (if is_candidate format c then [size_of c] else [])) ->
  tracked seen (backupSize b) ->
  tracked (seen ++ (if is_candidate format c then [size_of c] else []))
          (backupSize (stepf b c)).
Proof.
  intros Hno Hsound Htr.
  assert (Hstep : is_candidate format c = false -> stepf b c = b).
  { subst stepf. unfold choose_step, is_candidate.
    destruct (sc_input c =? 0); cbn; [ | reflexivity ].
    destruct (sc_format c =? format); cbn; [ discriminate | reflexivity ]. }
  destruct (is_candidate format c) eqn:Hcand.
  2: { rewrite Hstep by reflexivity. now rewrite app_nil_r. }
  clear Hstep.
  assert (Hex : (sc_width c =? width asked) && (sc_height c =? height asked) = false).
  { subst matches. cbn in Hno. rewrite Hcand in Hno. exact Hno. }
  assert (Hc : sound (size_of c)).
  { rewrite Forall_forall in Hsound. apply Hsound, in_or_app. right. now left. }
  assert (Hcur : mul32 (sc_width c) (sc_height c) = area (size_of c))
    by (apply wrap32_id, Hc).
  assert (Hask : mul32 (width asked) (height asked) = area asked)
    by (apply wrap32_id, asked_area).
  unfold is_candidate in Hcand. apply andb_true_iff in Hcand as [Hin Hfmt].
  subst stepf. unfold choose_step. rewrite Hin, Hfmt, Hex, Hcur, Hask. cbn [negb].
  destruct Htr as [[-> Hb] | Hfirst].
  - rewrite Hb. cbn. right. exists [], []. repeat split; intros ? [].
  - assert (Hbk : sound (backupSize b)).
    { rewrite Forall_forall in Hsound. apply Hsound, in_or_app. left.
      eapply first_closest_in, Hfirst. }
    assert (Hw : mul32 (width (backupSize b)) (height (backupSize b)) = area (backupSize b))
      by (apply wrap32_id, Hbk).
    rewrite Hw. destruct (Z.eqb_spec (area (backupSize b)) 0) as [Hz | _];
      [ now destruct Hbk | ].
    cbn [orb]. fold (distance asked (size_of c)) (distance asked (backupSize b)).
    destruct Hfirst as (before & after & -> & Hbefore & Hafter).
    right. destruct (Z.ltb_spec0 (distance asked (size_of c)) (distance asked (backupSize b)))
      as [Hlt | Hge]; cbn [backupSize];
      change {| width := sc_width c; height := sc_height c |} with (size_of c).
    + exists (before ++ backupSize b :: after), []. repeat split.
      * intros x Hx. apply in_app_or in Hx as [Hx | [<- | Hx]].
        -- specialize (Hbefore x Hx). lia.
        -- exact Hlt.
        -- specialize (Hafter x Hx). lia.
      * intros ? [].
    + exists before, (after ++ [size_of c]). repeat split.
      * now rewrite <- app_assoc.
      * exact Hbefore.
      * intros x Hx. apply in_app_or in Hx as [Hx | [<- | []]].
        -- now apply Hafter.
        -- lia.
Qed.

Lemma fold_tracked l : forall seen b,
  existsb matches l = false ->
  Forall sound (seen ++ candidates format l) ->
  tracked seen (backupSize b) ->
  tracked (seen ++ candidates format l) (backupSize (fold_left stepf l b)).
Proof.
  induction l as [ | c l IH ]; intros seen b Hno Hsound Htr.
  - cbn. now rewrite app_nil_r.
  - cbn in Hno. apply orb_false_iff in Hno as [Hc Hl].
    assert (Hsplit : seen ++ candidates format (c :: l) =
                     (seen ++ (if is_candidate format c then [size_of c] else []))
                       ++ candidates format l).
    { unfold candidates. cbn. destruct (is_candidate format c); cbn;
        now rewrite <- app_assoc. }
    rewrite Hsplit in *. cbn [fold_left]. apply IH; [ exact Hl | exact Hsound | ].
    apply step_tracked; [ exact Hc | | exact Htr ].
    apply Forall_app in Hsound. tauto.
Qed.

Lemma negotiation_sound l :
  Forall sound (candidates format l) -> negotiation_as_specified format asked l.
Proof.
  intros Hsound. unfold negotiation_as_specified, choose_size, choose_loop.
  fold stepf. split.
  - intros Hin. apply in_candidates_matches in Hin.
    now rewrite fold_found, Hin, orb_true_r.
  - intros Hout Hne.
    assert (Hno : existsb matches l = false).
    { destruct (existsb matches l) eqn:E; [ | reflexivity ].
      exfalso. apply Hout, in_candidates_matches, E. }
    rewrite fold_found, Hno. cbn.
    destruct (fold_tracked l [] {| backupSize := {| width := 0; height := 0 |};
                                   found := false |} Hno Hsound) as [[Hnil _] | H].
    + left. split; reflexivity.
    + contradiction.
    + exact H.
Qed.

End Negotiation.

Section ChooseBest.

Context {W : Type} {P : Ndk W}.

Lemma rev_map_log {A} (text : string) (l : list A) :
  rev (map (fun _ => Log Message text) l) = map (fun _ => Log Message text) l.
Proof.
  induction l as [ | a l IH ]; cbn; [ reflexivity | ].
  rewrite IH. clear IH. induction l as [ | b l IH ]; cbn; [ reflexivity | ].
  now rewrite IH.
Qed.

(** [choose_best_configurations] leaves the size [choose_size] computes and
    touches nothing else in the context. *)
Lemma choose_best_configurations_spec (m : Machine AndroidCamera2Context W) dev :
  device (state m) = Some dev ->
  exists m',
    android_camera2_capture_choose_best_configurations m = Done (tt, m') /\
    state m' = set_captureSize
                 (choose_size (captureFormat (state m)) (captureSize (state m))
                    (offered m dev)) (state m) /\
    world m' = fst (ndk_reply (world m) ACameraManager_create) /\
    trace m' =
      (if found (choose_loop (captureFormat (state m)) (captureSize (state m))
                   (offered m dev))
       then Log Message "Found exact match for our required size of %ix%i"
       else Log Warning "Couldn't find requested resolution, instead using %ix%i")
        :: choose_messages (captureFormat (state m)) (offered m dev)
        ++ [Call ACameraManager_create; Log Message "Listing camera %s configurations"]
        ++ trace m.
Proof.
  intros Hdev. destruct m as [d w t]. cbn in Hdev.
  unfold android_camera2_capture_choose_best_configurations, offered, choose_size.
  exec. rewrite Hdev. exec.
  destruct (ndk_reply w ACameraManager_create) as [w' r]. cbn [fst snd]. exec.
  destruct (found (choose_loop (captureFormat d) (captureSize d) _)) eqn:Hfound; exec.
  - eexists. split; [ reflexivity | ]. repeat split.
    + destruct d as [? ? ? ? [? ?] ? ? ? ? ? ? ? ? ? ?]. reflexivity.
    + unfold choose_messages at 1. rewrite rev_map_log. reflexivity.
  - eexists. split; [ reflexivity | ]. repeat split.
    unfold choose_messages at 1. rewrite rev_map_log. reflexivity.
Qed.

End ChooseBest.



(** ** Stopping *)

(** One decision on a path through [start] or [stop]: an answer of the
    platform, the test of a handle, the test of a status. *)
Ltac branch :=
  match goal with
  | |- context [ndk_reply ?w ?c] => is_var w; destruct (ndk_reply w c) as [? ?]
  | E : (?h =? nullptr) = false |- context [?h =? nullptr] => rewrite E
  | |- context [?h =? nullptr] =>
      is_var h; let E := fresh "E" in
      destruct (h =? nullptr) eqn:E; [ apply Z.eqb_eq in E; subst h | ]
  | |- context [nullptr =? nullptr] => change (nullptr =? nullptr) with true
  | |- context [negb true] => cbn [negb]
  | |- context [negb false] => cbn [negb]
  | |- context [status ?r =? ACAMERA_OK] => destruct (status r =? ACAMERA_OK)
  | |- context [status ?r =? AMEDIA_OK] => destruct (status r =? AMEDIA_OK)
  end.

Section Stopping.

Context {W : Type} {P : Ndk W}.

Implicit Type m : Machine AndroidCamera2Context W.

Lemma stop_idle m :
  capturing (state m) = false ->
  android_camera2_capture_stop m =
  Done (tt, {| state := state m; world := world m;
               trace := Log Warning "Capture was already stopped, ignoring..."
                          :: Log Message "Stopping capture" :: trace m |}).
Proof.
  intros Hidle. unfold android_camera2_capture_stop. exec. now rewrite Hidle.
Qed.

(** A running capture stops: the platform is asked to release what is held,
    handle by handle, and the context is left [stopped]. *)
Lemma stop_running_releases m :
  capturing (state m) = true ->
  device (state m) <> None \/ cameraDevice (state m) = nullptr ->
  exists m' events,
    android_camera2_capture_stop m = Done (tt, m') /\
    state m' = stopped (state m) /\
    trace m' = events ++ trace m /\
    Forall log_or_call events /\
    ndk_calls (rev events) = release_calls (state m).
Proof.
  destruct m as [[f c dev rot sz fmt fr h1 h2 h3 h4 h5 h6 h7 h8] w t].
  cbn [state capturing device cameraDevice]. intros -> Hdev.
  unfold android_camera2_capture_stop, android_camera2_capture_close_camera, stopped,
    release_calls.
  exec. cbn [capturing set_capturing negb].
  assert (Hcam : h1 = nullptr \/ exists d, dev = Some d).
  { destruct Hdev as [Hdev | ->]; [ | now left ].
    destruct dev; [ right; eauto | contradiction ]. }
  clear Hdev. unfold is_null. cbn -[Z.eqb].
  repeat (branch; cbn -[Z.eqb]).
  all: try (destruct Hcam as [-> | [d ->]]; [ discriminate | ]).
  all: repeat (branch; cbn -[Z.eqb]).
  all: do 2 eexists; split; [ reflexivity | ]; cbn -[Z.eqb]; split; [ reflexivity | ].
  all: split; [ new_events | ].
  all: split; [ repeat constructor | reflexivity ].
Qed.

Lemma stop_running m :
  capturing (state m) = true ->
  device (state m) <> None \/ cameraDevice (state m) = nullptr ->
  exists m' events,
    android_camera2_capture_stop m = Done (tt, m') /\
    state m' = stopped (state m) /\
    trace m' = events ++ trace m /\
    Forall log_or_call events.
Proof.
  intros Hrun Hdev.
  destruct (stop_running_releases m Hrun Hdev) as (m' & events & H1 & H2 & H3 & H4 & _).
  exists m', events. auto.
Qed.

End Stopping.

(** ** Invariants of the filter's code *)

Section Keeps.

Context {W : Type} {P : Ndk W}.

Variable G : AndroidCamera2Context -> list Event -> Prop.

Lemma keeps_ret {A} (a : A) : keeps (W:=W) G (ret a).
Proof. intros m a' m' Hm H. injection H as _ <-. exact Hm. Qed.

Lemma keeps_fault {A} : keeps G (@fault _ W A).
Proof. intros m a m' _ H. discriminate H. Qed.

Lemma keeps_bind {A B} (c : Filter W A) (k : A -> Filter W B) :
  keeps G c -> (forall a, keeps (W:=W) G (k a)) -> keeps (W:=W) G (bind c k).
Proof.
  intros Hc Hk m b m' Hm H. unfold bind in H.
  destruct (c m) as [[a m1] | ] eqn:E; [ | discriminate H ].
  eapply Hk; [ eapply Hc; eassumption | exact H ].
Qed.

(** What [get] returns satisfies the invariant with some trace. *)
Lemma keeps_get {B} (k : AndroidCamera2Context -> Filter W B) :
  (forall d, (exists t, G d t) -> keeps (W:=W) G (k d)) -> keeps (W:=W) G (bind get k).
Proof.
  intros Hk m b m' Hm H. unfold bind, get in H.
  eapply (Hk (state m)); [ exists (trace m); exact Hm | exact Hm | exact H ].
Qed.

Lemma keeps_modify (f : AndroidCamera2Context -> AndroidCamera2Context) :
  (forall d t, G d t -> G (f d) t) -> keeps (W:=W) G (modify f).
Proof.
  intros Hf m a m' Hm H. injection H as _ <-. apply Hf, Hm.
Qed.

Lemma keeps_emit (e : Event) :
  (forall d t, G d t -> G d (e :: t)) -> keeps (W:=W) G (emit e).
Proof.
  intros He m a m' Hm H. injection H as _ <-. apply He, Hm.
Qed.

Lemma keeps_emit_all (l : list Event) :
  (forall e, In e l -> forall d t, G d t -> G d (e :: t)) -> keeps (W:=W) G (emit_all l).
Proof.
  intros Hl m a m' Hm H. injection H as _ <-. unfold good in *. cbn.
  destruct m as [d w t]. cbn in *. clear w.
  induction l as [ | e l IH ] using rev_ind; [ exact Hm | ].
  rewrite rev_app_distr. cbn. apply Hl; [ apply in_or_app; right; now left | ].
  apply IH. intros e' He'. apply Hl, in_or_app. now left.
Qed.

Lemma keeps_ndk (c : NdkCall) :
  (forall d t, G d t -> G d (Call c :: t)) -> keeps (W:=W) G (ndk c).
Proof.
  intros Hc m a m' Hm H. unfold ndk in H.
  destruct (ndk_reply (world m) c). injection H as _ <-. apply Hc, Hm.
Qed.

Lemma keeps_ndk_ (c : NdkCall) :
  (forall d t, G d t -> G d (Call c :: t)) -> keeps (W:=W) G (ndk_ c).
Proof.
  intros Hc. apply keeps_bind; [ now apply keeps_ndk | intros; apply keeps_ret ].
Qed.

Lemma keeps_host {A} (f : W -> W * A) : keeps (W:=W) G (host f).
Proof.
  intros m a m' Hm H. unfold host in H.
  destruct (f (world m)). injection H as _ <-. exact Hm.
Qed.

Lemma keeps_ask {A} (f : W -> A) : keeps (W:=W) G (ask f).
Proof. intros m a m' Hm H. injection H as _ <-. exact Hm. Qed.

Lemma keeps_deref {A} (p : option A) : keeps (W:=W) G (deref p).
Proof. destruct p; [ apply keeps_ret | apply keeps_fault ]. Qed.

Lemma keeps_when (b : bool) (c : Filter W unit) : keeps G c -> keeps (W:=W) G (when b c).
Proof. destruct b; [ auto | intros; apply keeps_ret ]. Qed.

End Keeps.

(** One step through code that keeps an invariant; [side] proves that an
    update or an event respects it, [known] uses what [get] returned. *)
Ltac keeps_with side known special :=
  repeat first
    [ assumption
    | special
    | apply keeps_ret
    | apply keeps_fault
    | apply keeps_host
    | apply keeps_ask
    | apply keeps_deref
    | apply keeps_get; intros ? ?; known
    | apply keeps_modify; solve [ side ]
    | apply keeps_emit; solve [ side ]
    | apply keeps_ndk_; solve [ side ]
    | apply keeps_ndk; solve [ side ]
    | apply keeps_when
    | apply keeps_bind; [ | intros ? ]
    | match goal with
      | |- keeps _ (if ?b then _ else _) => destruct b
      | |- keeps _ (match ?x with _ => _ end) => destruct x
      | |- keeps _ (let (_, _) := ?x in _) => destruct x
      end ].

(** ** No capture session is ever made *)

Create HintDb sessionless.

Section Sessionless.

Context {W : Type} {P : Ndk W}.

(** An update that leaves the session and the capturing flag alone, or an
    event that does not involve a session, respects [sessionless]. *)
Ltac sessionless_side :=
  let Hs := fresh "Hs" in
  let Ht := fresh "Ht" in
  let Hc := fresh "Hc" in
  intros ? ? (Hs & Ht & Hc); repeat split;
  [ exact Hs
  | first [ exact Ht | constructor; [ cbn; auto | exact Ht ] ]
  | first [ exact Hc | discriminate
          | let H := fresh in intros H; apply Exists_cons_tl, Hc, H ] ].

(** What [get] returned has a null session: the tests on it are decided. *)
Ltac sessionless_known :=
  match goal with
  | H : exists t, sessionless ?d t |- _ =>
      let Hs := fresh "Hs" in
      destruct H as (? & Hs & _ & _);
      rewrite ?Hs; change (negb (is_null nullptr)) with false; cbv [when]
  end.

(** The end of [start]: the repeating request goes to the null session,
    then the capture counts as running. *)
Lemma keeps_sessionless_started request l text :
  keeps (W:=W) sessionless
    (ndk_ (ACameraCaptureSession_setRepeatingRequest nullptr 1 request) ;;
     modify (set_capturing true) ;;
     log l text).
Proof.
  intros m a m' (Hs & Ht & _) H. exec_in H.
  destruct (ndk_reply (world m) _) as [w r]. injection H as _ <-.
  repeat split; cbn.
  - exact Hs.
  - repeat constructor. exact Ht.
  - intros _. right. left. now exists request.
Qed.

Ltac sessionless :=
  keeps_with ltac:(idtac; sessionless_side) ltac:(idtac; sessionless_known)
    ltac:(idtac; first [ apply keeps_sessionless_started
                       | solve [ auto with sessionless ] ]).

Lemma keeps_sessionless_open_camera :
  keeps (W:=W) sessionless android_camera2_capture_open_camera.
Proof. unfold android_camera2_capture_open_camera, log. sessionless. Qed.

Lemma keeps_sessionless_close_camera :
  keeps (W:=W) sessionless android_camera2_capture_close_camera.
Proof. unfold android_camera2_capture_close_camera, log. sessionless. Qed.

#[local] Hint Resolve keeps_sessionless_open_camera keeps_sessionless_close_camera
  : sessionless.

Lemma keeps_sessionless_start :
  keeps (W:=W) sessionless android_camera2_capture_start.
Proof. unfold android_camera2_capture_start, log. sessionless. Qed.

Lemma keeps_sessionless_stop :
  keeps (W:=W) sessionless android_camera2_capture_stop.
Proof. unfold android_camera2_capture_stop, log. sessionless. Qed.

#[local] Hint Resolve keeps_sessionless_start keeps_sessionless_stop : sessionless.

Lemma keeps_sessionless_image_to_mblkt image :
  keeps (W:=W) sessionless (android_camera2_capture_image_to_mblkt image).
Proof.
  unfold android_camera2_capture_image_to_mblkt, android_camera2_capture_get_orientation,
    log.
  sessionless.
Qed.

Lemma keeps_sessionless_store_frame b :
  keeps (W:=W) sessionless (store_frame b).
Proof. unfold store_frame. sessionless. Qed.

Lemma keeps_sessionless_filter_destroyed :
  keeps (W:=W) sessionless filter_destroyed.
Proof. unfold filter_destroyed. sessionless. Qed.

#[local] Hint Resolve keeps_sessionless_image_to_mblkt keeps_sessionless_store_frame
  keeps_sessionless_filter_destroyed : sessionless.

Lemma keeps_sessionless_on_image_available reader :
  keeps (W:=W) sessionless (android_camera2_capture_on_image_available reader).
Proof. unfold android_camera2_capture_on_image_available, log. sessionless. Qed.

Lemma keeps_sessionless_preprocess :
  keeps (W:=W) sessionless android_camera2_capture_preprocess.
Proof. unfold android_camera2_capture_preprocess, log. sessionless. Qed.

Lemma keeps_sessionless_process :
  keeps (W:=W) sessionless android_camera2_capture_process.
Proof. unfold android_camera2_capture_process. sessionless. Qed.

Lemma keeps_sessionless_postprocess :
  keeps (W:=W) sessionless android_camera2_capture_postprocess.
Proof. unfold android_camera2_capture_postprocess, log. sessionless. Qed.

Lemma keeps_sessionless_choose_best_configurations :
  keeps (W:=W) sessionless android_camera2_capture_choose_best_configurations.
Proof.
  unfold android_camera2_capture_choose_best_configurations, log. sessionless.
  apply keeps_emit_all. intros e He. unfold choose_messages in He.
  apply in_map_iff in He as (? & <- & _). sessionless_side.
Qed.

#[local] Hint Resolve keeps_sessionless_choose_best_configurations : sessionless.

Lemma keeps_sessionless_set_vsize size :
  keeps (W:=W) sessionless (android_camera2_capture_set_vsize size).
Proof. unfold android_camera2_capture_set_vsize, log. sessionless. Qed.

Lemma keeps_sessionless_get_vsize :
  keeps (W:=W) sessionless android_camera2_capture_get_vsize.
Proof.
  unfold android_camera2_capture_get_vsize, android_camera2_capture_get_orientation, log.
  sessionless.
Qed.

Lemma keeps_sessionless_host_ticker t :
  keeps (W:=W) sessionless (host_ticker t).
Proof.
  apply keeps_modify. intros d ? H. destruct (filter d); [ | exact H ].
  exact H.
Qed.

#[local] Hint Resolve keeps_sessionless_on_image_available keeps_sessionless_preprocess
  keeps_sessionless_process keeps_sessionless_postprocess keeps_sessionless_set_vsize
  keeps_sessionless_get_vsize keeps_sessionless_host_ticker : sessionless.

Lemma keeps_sessionless_step op : keeps (W:=W) sessionless (step op).
Proof.
  destruct op; cbn [step];
    unfold android_camera2_capture_set_fps, android_camera2_capture_set_device_rotation,
      log;
    sessionless.
Qed.

Lemma keeps_sessionless_run ops : keeps (W:=W) sessionless (run ops).
Proof.
  induction ops as [ | op ops IH ]; cbn [run].
  - apply keeps_ret.
  - apply keeps_bind; [ apply keeps_sessionless_step | intros _; exact IH ].
Qed.

End Sessionless.

(** C1.  Whatever the host runs on a filter, and whatever the platform
    answers, the capture session of the filter is null: no event involves a
    session other than repeating requests on the null session, so the
    session branch of [stop] has never run, and a capture that counts as
    running has issued its repeating request on the null session. *)
Theorem capture_session_stays_null {W : Type} {P : Ndk W}
    (m0 m : Machine AndroidCamera2Context W) (ops : list Op) :
  (exists f w, m0 = android_camera2_capture_init f w) \/
  (exists dev f w, m0 = android_camera2_capture_create_reader dev f w) ->
  run ops m0 = Done (tt, m) ->
  captureSession (state m) = nullptr /\
  Forall session_free (trace m) /\
  (capturing (state m) = true -> Exists null_repeating (trace m)).
Proof.
  intros Hboot Hrun.
  apply (keeps_sessionless_run ops m0 tt m); [ | exact Hrun ].
  destruct Hboot as [(f & w & ->) | (dev & f & w & ->)];
    (repeat split; cbn; [ repeat constructor | discriminate ]).
Qed.

Lemma capture_session_stays_null_witness :
  exists m,
    run [SetVsize {| width := 640; height := 480 |}; Stop]
      (android_camera2_capture_create_reader Mock.back_camera Mock.ticking Mock.phone)
    = Done (tt, m) /\
    captureSession (state m) = nullptr.
Proof.
  eexists. split; [ vm_compute; reflexivity | ].
  refine (proj1 (capture_session_stays_null _ _
                   [SetVsize {| width := 640; height := 480 |}; Stop] _ _)).
  - right. exists Mock.back_camera, Mock.ticking, Mock.phone. reflexivity.
  - vm_compute. reflexivity.
Defined.


(** ** Starting *)

Section Starting.

Context {W : Type} {P : Ndk W}.

Implicit Type m : Machine AndroidCamera2Context W.

Lemma start_unconfigured m :
  width (captureSize (state m)) = 0 \/ height (captureSize (state m)) = 0 ->
  android_camera2_capture_start m =
  Done (tt, {| state := state m; world := world m;
               trace := Log Warning "Filter hasn't been fully configured yet, don't start"
                          :: Log Message "Starting capture" :: trace m |}).
Proof.
  intros Hzero. unfold android_camera2_capture_start. exec.
  destruct Hzero as [-> | ->]; [ reflexivity | ].
  now rewrite orb_true_r.
Qed.

Lemma start_running m :
  capturing (state m) = true ->
  exists text,
    android_camera2_capture_start m =
    Done (tt, {| state := state m; world := world m;
                 trace := Log Warning text :: Log Message "Starting capture" :: trace m |}).
Proof.
  intros Hrun. unfold android_camera2_capture_start. exec. rewrite Hrun.
  destruct (_ || _); eexists; reflexivity.
Qed.

(** [stop] returns whenever an open camera has a device behind it. *)
Lemma stop_returns m :
  device (state m) <> None \/ cameraDevice (state m) = nullptr ->
  exists m' events,
    android_camera2_capture_stop m = Done (tt, m') /\
    state m' = (if capturing (state m) then stopped (state m) else state m) /\
    trace m' = events ++ trace m /\
    Forall log_or_call events.
Proof.
  intros Hdev. destruct (capturing (state m)) eqn:Hcap.
  - now apply stop_running.
  - rewrite (stop_idle m Hcap). do 2 eexists. split; [ reflexivity | ]. cbn.
    split; [ reflexivity | ]. split; [ new_events | repeat constructor ].
Qed.

End Starting.

(** ** Before any start *)

Create HintDb untouched.

Section Untouched.

Context {W : Type} {P : Ndk W}.

Ltac untouched_side :=
  let Hc := fresh "Hc" in
  let Hn := fresh "Hn" in
  let Hz := fresh "Hz" in
  intros ? ? (Hc & Hn & Hz); repeat split; [ exact Hc | exact Hn | exact Hz ].

(** What [get] returned is not capturing and has no size: the tests on the
    flag and on the size are decided. *)
Ltac untouched_known :=
  match goal with
  | H : exists t, untouched ?d t |- _ =>
      let Hc := fresh "Hc" in
      let Hz := fresh "Hz" in
      destruct H as (? & Hc & _ & Hz);
      rewrite ?Hc, ?Hz; cbn [width height Z.eqb negb andb orb]; cbv [when]
  end.

Ltac untouched :=
  keeps_with ltac:(idtac; untouched_side) ltac:(idtac; untouched_known)
    ltac:(idtac; solve [ auto with untouched ]).

Lemma keeps_untouched_image_to_mblkt image :
  keeps (W:=W) untouched (android_camera2_capture_image_to_mblkt image).
Proof.
  unfold android_camera2_capture_image_to_mblkt, android_camera2_capture_get_orientation,
    log.
  untouched.
Qed.

Lemma keeps_untouched_store_frame b : keeps (W:=W) untouched (store_frame b).
Proof. unfold store_frame. untouched. Qed.

Lemma keeps_untouched_filter_destroyed : keeps (W:=W) untouched filter_destroyed.
Proof. unfold filter_destroyed. untouched. Qed.

#[local] Hint Resolve keeps_untouched_image_to_mblkt keeps_untouched_store_frame
  keeps_untouched_filter_destroyed : untouched.

Lemma keeps_untouched_step op :
  may_start op = false -> keeps (W:=W) untouched (step op).
Proof.
  destruct op; cbn [may_start step]; try discriminate; intros _;
    unfold android_camera2_capture_preprocess, android_camera2_capture_process,
      android_camera2_capture_postprocess, android_camera2_capture_stop,
      android_camera2_capture_set_fps, android_camera2_capture_get_vsize,
      android_camera2_capture_get_orientation,
      android_camera2_capture_set_device_rotation,
      android_camera2_capture_on_image_available, host_ticker, log;
    untouched.
  apply keeps_modify. intros d ? H. destruct (filter d); exact H.
Qed.

Lemma keeps_untouched_run ops :
  forallb (fun op => negb (may_start op)) ops = true ->
  keeps (W:=W) untouched (run ops).
Proof.
  induction ops as [ | op ops IH ]; cbn [run forallb]; intros Hops.
  - apply keeps_ret.
  - apply andb_true_iff in Hops as [Hop Hops].
    apply keeps_bind; [ | intros _; exact (IH Hops) ].
    apply keeps_untouched_step. now destruct (may_start op).
Qed.

End Untouched.

Lemma stopped_handles_null d : handles_null (stopped d).
Proof. repeat constructor. Qed.

(** C7, amended.  When the camera that is open, if any, has a device behind
    it, two stops in a row both return and the second changes nothing and
    issues no call.  After them no handle is left if the capture was running
    before the first; and on a filter on which no start has been attempted
    the first stop changes nothing either and no handle is set. *)
Theorem stop_twice {W : Type} {P : Ndk W} (m : Machine AndroidCamera2Context W) :
  device (state m) <> None \/ cameraDevice (state m) = nullptr ->
  exists m1 m2,
    android_camera2_capture_stop m = Done (tt, m1) /\
    android_camera2_capture_stop m1 = Done (tt, m2) /\
    state m2 = state m1 /\ world m2 = world m1 /\
    calls (trace m2) = calls (trace m1) /\
    (capturing (state m) = true -> handles_null (state m2)) /\
    (forall m0 ops,
       (exists f w, m0 = android_camera2_capture_init f w) \/
       (exists dev f w, m0 = android_camera2_capture_create_reader dev f w) ->
       forallb (fun op => negb (may_start op)) ops = true ->
       run ops m0 = Done (tt, m) ->
       state m1 = state m /\ world m1 = world m /\
       calls (trace m1) = calls (trace m) /\
       handles_null (state m1)).
Proof.
  intros Hdev.
  destruct (stop_returns m Hdev) as (m1 & events & Hstop & Hstate & _ & _).
  assert (Hidle : capturing (state m1) = false)
    by (rewrite Hstate; destruct (capturing (state m)) eqn:E; [ reflexivity | exact E ]).
  exists m1. eexists. split; [ exact Hstop | ].
  split; [ apply stop_idle, Hidle | ]. cbn [state world trace].
  split; [ reflexivity | ]. split; [ reflexivity | ]. split; [ reflexivity | ].
  split.
  - intros Hrun. rewrite Hstate, Hrun. apply stopped_handles_null.
  - intros m0 ops Hboot Hops Hrun.
    assert (Hm : untouched (state m) (trace m)).
    { apply (keeps_untouched_run ops Hops m0 tt m); [ | exact Hrun ].
      destruct Hboot as [(f & w & ->) | (dev & f & w & ->)];
        repeat split; repeat constructor. }
    destruct Hm as (Hcap & Hnull & _).
    rewrite (stop_idle m Hcap) in Hstop. injection Hstop as <-.
    cbn [state world trace]. repeat split; assumption.
Qed.

Lemma stop_twice_witness :
  stop_twice_as_specified
    (MockRuns.after [SetVsize {| width := 640; height := 480 |}]
       (MockRuns.boot Mock.phone)).
Proof.
  destruct (stop_twice (MockRuns.after [SetVsize {| width := 640; height := 480 |}]
                          (MockRuns.boot Mock.phone)))
    as (m1 & m2 & H1 & H2 & Hs & Hw & Hc & Hnull & _).
  - left. vm_compute. discriminate.
  - assert (Hrun : capturing (state (MockRuns.after
                      [SetVsize {| width := 640; height := 480 |}]
                      (MockRuns.boot Mock.phone))) = true)
      by (vm_compute; reflexivity).
    exists m1, m2.
    exact (conj H1 (conj H2 (conj Hs (conj Hw (conj Hc (Hnull Hrun)))))).
Defined.

(** C7 as stated fails after a start that gave up half-way: the capture is
    not running, so both stops return at once, and the handles that start
    had acquired stay set. *)
Lemma stop_twice_as_specified_counterexample :
  run [SetVsize {| width := 640; height := 480 |}] (MockRuns.boot MockRuns.no_reader) =
    Done (tt, MockRuns.after [SetVsize {| width := 640; height := 480 |}]
                (MockRuns.boot MockRuns.no_reader)) /\
  capturing (state (MockRuns.after [SetVsize {| width := 640; height := 480 |}]
                      (MockRuns.boot MockRuns.no_reader))) = false /\
  ~ stop_twice_as_specified
      (MockRuns.after [SetVsize {| width := 640; height := 480 |}]
         (MockRuns.boot MockRuns.no_reader)).
Proof.
  split; [ vm_compute; reflexivity | ].
  assert (Hdev : cameraDevice (state (MockRuns.after
                   [SetVsize {| width := 640; height := 480 |}]
                   (MockRuns.boot MockRuns.no_reader))) <> nullptr)
    by (vm_compute; discriminate).
  assert (Hidle : capturing (state (MockRuns.after
                    [SetVsize {| width := 640; height := 480 |}]
                    (MockRuns.boot MockRuns.no_reader))) = false)
    by (vm_compute; reflexivity).
  split; [ exact Hidle | ].
  revert Hdev Hidle. generalize (MockRuns.after
    [SetVsize {| width := 640; height := 480 |}] (MockRuns.boot MockRuns.no_reader)).
  intros m Hdev Hidle (m1 & m2 & H1 & H2 & _ & _ & _ & Hnull).
  rewrite (stop_idle m Hidle) in H1. injection H1 as <-.
  rewrite stop_idle in H2 by exact Hidle. injection H2 as <-.
  apply Forall_inv in Hnull. exact (Hdev Hnull).
Qed.

(** C8.  Asking for the size the filter already has returns -1 at once: the
    context and the world are as before, and the only event is the message
    that announces the sizes; nothing is stopped, negotiated, started or
    notified. *)
Theorem set_vsize_same_size {W : Type} {P : Ndk W}
    (m : Machine AndroidCamera2Context W) :
  android_camera2_capture_set_vsize (captureSize (state m)) m =
  Done (-1, {| state := state m; world := world m;
               trace := Log Message "Current preview size is %i/%i, new size will be %i/%i"
                          :: trace m |}).
Proof.
  unfold android_camera2_capture_set_vsize. exec. now rewrite !Z.eqb_refl.
Qed.

(** ** A size change with nothing on offer *)

Lemma choose_loop_no_candidate format asked l :
  candidates format l = [] ->
  choose_loop format asked l =
  {| backupSize := {| width := 0; height := 0 |}; found := false |}.
Proof.
  unfold candidates, choose_loop. intros Hnone. apply map_eq_nil in Hnone.
  generalize {| backupSize := {| width := 0; height := 0 |}; found := false |}.
  induction l as [ | c l IH ]; intros b; cbn [fold_left]; [ reflexivity | ].
  cbn [List.filter] in Hnone. unfold is_candidate at 1 in Hnone.
  assert (Hskip : choose_step format (mul32 (width asked) (height asked)) asked b c = b).
  { unfold choose_step.
    destruct (sc_input c =? 0); cbn [negb andb] in *; [ | reflexivity ].
    destruct (sc_format c =? format); [ discriminate Hnone | reflexivity ]. }
  rewrite Hskip. apply IH.
  destruct ((sc_input c =? 0) && (sc_format c =? format)); [ discriminate Hnone | ].
  exact Hnone.
Qed.



(** ** The guard of the image callback *)

Create HintDb destroyed.

Section Destroyed.

Context {W : Type} {P : Ndk W}.

Implicit Type m : Machine AndroidCamera2Context W.

Lemma filter_destroyed_null m :
  filter (state m) = None -> filter_destroyed m = Fault.
Proof. intros Hnull. unfold filter_destroyed. exec. now rewrite Hnull. Qed.

Lemma filter_destroyed_alive m :
  filter (state m) <> None -> filter_destroyed m = Done (false, m).
Proof.
  intros Halive. unfold filter_destroyed. exec.
  destruct (filter (state m)); [ reflexivity | contradiction ].
Qed.

Lemma filter_destroyed_false m a m' : filter_destroyed m = Done (a, m') -> a = false.
Proof.
  destruct (filter (state m)) eqn:Hf.
  - rewrite filter_destroyed_alive by (rewrite Hf; discriminate). congruence.
  - rewrite filter_destroyed_null by exact Hf. discriminate.
Qed.

(** A computation whose result is known to satisfy [R] hands only such
    results to what follows. *)
Lemma keeps_bind_result {A B} (G : AndroidCamera2Context -> list Event -> Prop)
    (R : A -> Prop) (c : Filter W A) (k : A -> Filter W B) :
  (forall m a m', c m = Done (a, m') -> R a) ->
  keeps G c -> (forall a, R a -> keeps G (k a)) -> keeps G (bind c k).
Proof.
  intros HR Hc Hk m b m' Hm H. unfold bind in H.
  destruct (c m) as [[a m1] | ] eqn:E; [ | discriminate H ].
  eapply (Hk a); [ eapply HR, E | eapply Hc; eassumption | exact H ].
Qed.

Variable t0 : list Event.

Ltac destroyed_side :=
  let events := fresh "events" in
  let Hn := fresh "Hn" in
  let E := fresh "E" in
  first
    [ intros ? ? ?; assumption
    | intros ? ? (events & -> & Hn);
      match goal with
      | |- never_destroyed _ _ (?e :: _) =>
          exists (e :: events); split;
          [ reflexivity | intros [E | E]; [ discriminate E | exact (Hn E) ] ]
      end ].

Ltac destroyed :=
  keeps_with ltac:(idtac; destroyed_side) ltac:(idtac)
    ltac:(idtac; first
      [ solve [ auto with destroyed ]
      | match goal with
        | |- keeps _ (bind filter_destroyed _) =>
            apply (keeps_bind_result _ (fun a => a = false));
            [ exact filter_destroyed_false | | intros ? -> ]
        end ]).

Lemma keeps_destroyed_image_to_mblkt image :
  keeps (W:=W) (never_destroyed t0) (android_camera2_capture_image_to_mblkt image).
Proof.
  unfold android_camera2_capture_image_to_mblkt, android_camera2_capture_get_orientation,
    log.
  destroyed.
Qed.

Lemma keeps_destroyed_store_frame b :
  keeps (W:=W) (never_destroyed t0) (store_frame b).
Proof. unfold store_frame. destroyed. Qed.

Lemma keeps_destroyed_filter_destroyed :
  keeps (W:=W) (never_destroyed t0) filter_destroyed.
Proof. unfold filter_destroyed. destroyed. Qed.

#[local] Hint Resolve keeps_destroyed_image_to_mblkt keeps_destroyed_store_frame
  keeps_destroyed_filter_destroyed : destroyed.

Lemma keeps_destroyed_on_image_available reader :
  keeps (W:=W) (never_destroyed t0) (android_camera2_capture_on_image_available reader).
Proof. unfold android_camera2_capture_on_image_available, log. destroyed. Qed.

End Destroyed.

(** C9.  The test [d->filter == nullptr && d->filter->ticker == nullptr]
    never yields true: with a null filter its second operand reads through
    the null pointer, with a filter it is false at the first operand.  So
    no run of the image callback that returns has taken the early return:
    the error that branch prints is not among the events the run added. *)
Theorem filter_destroyed_unreachable {W : Type} {P : Ndk W}
    (m : Machine AndroidCamera2Context W) :
  (filter (state m) = None -> filter_destroyed m = Fault) /\
  (filter (state m) <> None -> filter_destroyed m = Done (false, m)) /\
  (forall m', filter_destroyed m <> Done (true, m')) /\
  (forall reader m',
     android_camera2_capture_on_image_available reader m = Done (tt, m') ->
     exists events,
       trace m' = events ++ trace m /\ ~ In filter_destroyed_error events).
Proof.
  split; [ apply filter_destroyed_null | ].
  split; [ apply filter_destroyed_alive | ].
  split.
  - intros m' H. apply filter_destroyed_false in H. discriminate H.
  - intros reader m' Hrun.
    apply (keeps_destroyed_on_image_available (trace m) reader m tt m');
      [ | exact Hrun ].
    exists []. split; [ reflexivity | intros [] ].
Qed.

(** ** A camera that cannot be opened *)

(** C2, at the failing input.  The two guards of [start] hold: with no size,
    or with a capture running, it only warns.  But on a phone whose camera
    cannot be opened, asking the bound filter for 640x480 ends with the
    capture counted as running: after the failed open, [start] goes on to
    create the container, the reader, the window, the target, a request on
    the null device, and to issue the repeating request. *)
Theorem start_goes_on_after_failed_open {W : Type} {P : Ndk W}
    (m : Machine AndroidCamera2Context W) :
  (width (captureSize (state m)) = 0 \/ height (captureSize (state m)) = 0 ->
   exists m', android_camera2_capture_start m = Done (tt, m') /\
              state m' = state m /\ world m' = world m /\
              calls (trace m') = calls (trace m)) /\
  (capturing (state m) = true ->
   exists m', android_camera2_capture_start m = Done (tt, m') /\
              state m' = state m /\ world m' = world m /\
              calls (trace m') = calls (trace m)) /\
  exists m',
    run [SetVsize {| width := 640; height := 480 |}] (MockRuns.boot MockRuns.busy)
      = Done (tt, m') /\
    capturing (state m') = true /\
    cameraDevice (state m') = nullptr /\
    exists before,
      history m' =
        before ++
        [ Call (ACameraManager_openCamera 4097 "0");
          Log Error "Failed to open camera %s";
          Call (ACaptureSessionOutputContainer_create 0);
          Call (AImageReader_new 640 480 35 1 0);
          Call (AImageReader_setImageListener 4099);
          Log Message "Image reader created";
          Call (AImageReader_getWindow 4099 0);
          Call (ANativeWindow_acquire 4100);
          Log Message "Capture window acquired";
          Call (ACameraOutputTarget_create 4100 0);
          Call (ACameraDevice_createCaptureRequest 0 3 0);
          Log Error "Failed to create capture request";
          Call (ACaptureRequest_addTarget 0 4101);
          Call (ACaptureSessionOutput_create 4100 0);
          Call (ACaptureSessionOutputContainer_add 4098 4102);
          Call (ACameraCaptureSession_setRepeatingRequest 0 1 0);
          Log Message "Capture started";
          Notify {| width := 640; height := 480 |} ].
Proof.
  split; [ | split ].
  - intros Hzero. rewrite (start_unconfigured m Hzero).
    eexists. split; [ reflexivity | ]. repeat split.
  - intros Hrun. destruct (start_running m Hrun) as (text & ->).
    eexists. split; [ reflexivity | ]. repeat split.
  - eexists. split; [ vm_compute; reflexivity | ].
    split; [ reflexivity | ]. split; [ reflexivity | ].
    eexists. rewrite <- (firstn_skipn 15 (history _)) at 1.
    f_equal.
Qed.

(** ** Detection *)

Section Detection.

Context {W : Type} {P : Ndk W}.

Implicit Type m : Machine MSWebCamManager W.

(** Whether [detect_camera] registers a camera, given its facing and the
    two flags. *)
Let registers (back : bool) (flags : bool * bool) : bool :=
  (back && negb (snd flags)) || (negb back && negb (fst flags)).

(** One turn of the loop on a camera the platform describes. *)
Lemma detect_camera_described m id flags metadata :
  ACameraManager_getCameraCharacteristics (world m) id = (ACAMERA_OK, metadata) ->
  detect_camera id flags m =
  let back := lens_facing metadata =? ACAMERA_LENS_FACING_BACK in
  Done
    (if registers back flags
     then (if back then (fst flags, true) else (true, snd flags))
     else flags,
     {| state := if registers back flags
                 then ms_web_cam_manager_prepend_cam (state m)
                        (web_cam id (sensor_orientation metadata) back)
                 else state m;
        world := fst (ndk_reply (world m) (ACameraMetadata_free id));
        trace := Call (ACameraMetadata_free id)
                   :: (if registers back flags then [] else [same_direction_warning])
                   ++ Log Message "Camera %s is facing %s with angle %d" :: trace m |}).
Proof.
  intros Hmd. destruct flags as [front_found back_found].
  unfold detect_camera. exec. rewrite Hmd. cbn [fst snd]. rewrite Z.eqb_refl.
  cbn [negb]. exec. subst registers. cbn [fst snd]. unfold web_cam.
  destruct (lens_facing metadata =? ACAMERA_LENS_FACING_BACK);
    destruct front_found, back_found; cbn [andb orb negb]; exec;
    destruct (ndk_reply (world m) (ACameraMetadata_free id)); reflexivity.
Qed.

Lemma detect_loop_cons m id rest flags :
  detect_loop (id :: rest) flags m =
  match detect_camera id flags m with
  | Done (flags', m') => detect_loop rest flags' m'
  | Fault => Fault
  end.
Proof. reflexivity. Qed.

End Detection.

(** C3, amended.  When the platform lists four cameras that face back,
    front, back and back, detection adds exactly two cameras at the head of
    the manager's list: the first front-facing one, then the first
    back-facing one, since each is put in front of what the list held.  The
    two later back-facing cameras are each dropped with a warning, and no
    error is logged. *)
Theorem detect_back_front_back_back {W : Type} {P : Ndk W}
    (m : Machine MSWebCamManager W) (id0 id1 id2 id3 : string)
    (md0 md1 md2 md3 : ACameraMetadata) :
  characteristics_stable ->
  ACameraManager_getCameraIdList (fst (ndk_reply (world m) ACameraManager_create)) =
    (ACAMERA_OK, [id0; id1; id2; id3]) ->
  ACameraManager_getCameraCharacteristics (world m) id0 = (ACAMERA_OK, md0) ->
  ACameraManager_getCameraCharacteristics (world m) id1 = (ACAMERA_OK, md1) ->
  ACameraManager_getCameraCharacteristics (world m) id2 = (ACAMERA_OK, md2) ->
  ACameraManager_getCameraCharacteristics (world m) id3 = (ACAMERA_OK, md3) ->
  lens_facing md0 = ACAMERA_LENS_FACING_BACK ->
  lens_facing md1 <> ACAMERA_LENS_FACING_BACK ->
  lens_facing md2 = ACAMERA_LENS_FACING_BACK ->
  lens_facing md3 = ACAMERA_LENS_FACING_BACK ->
  exists m' events,
    android_camera2_capture_detect m = Done (tt, m') /\
    cams (state m') =
      web_cam id1 (sensor_orientation md1) false
        :: web_cam id0 (sensor_orientation md0) true
        :: cams (state m) /\
    trace m' = events ++ trace m /\
    complaints events = [same_direction_warning; same_direction_warning].
Proof.
  intros Hstable Hids H0 H1 H2 H3 F0 F1 F2 F3.
  apply Z.eqb_eq in F0, F2, F3. apply Z.eqb_neq in F1.
  unfold android_camera2_capture_detect. exec.
  destruct (ndk_reply (world m) ACameraManager_create) as [w1 r1] eqn:E1.
  exec. cbn [fst] in Hids. rewrite Hids. cbn [fst snd]. rewrite Z.eqb_refl.
  cbn [negb List.length Z.of_nat Z.ltb Z.compare Pos.of_succ_nat Pos.succ].
  assert (Hw1 : w1 = fst (ndk_reply (world m) ACameraManager_create))
    by now rewrite E1.
  change (4 <? 1) with false. cbv beta iota.
  rewrite detect_loop_cons.
  erewrite detect_camera_described
    by (cbn [world]; rewrite Hw1, Hstable; exact H0).
  cbv zeta. rewrite F0. cbn [fst snd andb orb negb world state trace app].
  rewrite detect_loop_cons.
  erewrite detect_camera_described
    by (cbn [world]; rewrite Hstable, Hw1, Hstable; exact H1).
  cbv zeta. rewrite F1. cbn [fst snd andb orb negb world state trace app].
  rewrite detect_loop_cons.
  erewrite detect_camera_described
    by (cbn [world]; rewrite !Hstable, Hw1, Hstable; exact H2).
  cbv zeta. rewrite F2. cbn [fst snd andb orb negb world state trace app].
  rewrite detect_loop_cons.
  erewrite detect_camera_described
    by (cbn [world]; rewrite !Hstable, Hw1, Hstable; exact H3).
  cbv zeta. rewrite F3. cbn [fst snd andb orb negb world state trace app detect_loop].
  exec.
  repeat match goal with
         | |- context [ndk_reply ?w ?c] => destruct (ndk_reply w c) as [? ?]
         end.
  do 2 eexists. split; [ reflexivity | ]. cbn [state trace].
  split; [ reflexivity | ]. split; [ new_events | reflexivity ].
Qed.

Lemma mock_characteristics_stable : characteristics_stable (P := Mock.platform).
Proof.
  intros w c id. cbn. unfold Mock.reply, Mock.create, Mock.answer.
  destruct c; cbn; repeat match goal with
                          | |- context [if ?b then _ else _] => destruct b
                          end; reflexivity.
Qed.

Lemma detect_back_front_back_back_witness :
  exists m',
    android_camera2_capture_detect MockRuns.empty_manager = Done (tt, m') /\
    map cam_id (cams (state m')) =
      ["Camera2Device1Facingfront"; "Camera2Device0Facingback"].
Proof.
  destruct (detect_back_front_back_back MockRuns.empty_manager "0" "1" "2" "3"
              (snd (Mock.camera 1 90 [])) (snd (Mock.camera 0 270 []))
              (snd (Mock.camera 1 90 [])) (snd (Mock.camera 1 90 [])))
    as (m' & events & Hrun & Hcams & _).
  - exact mock_characteristics_stable.
  - vm_compute. reflexivity.
  - vm_compute. reflexivity.
  - vm_compute. reflexivity.
  - vm_compute. reflexivity.
  - vm_compute. reflexivity.
  - vm_compute. reflexivity.
  - vm_compute. discriminate.
  - vm_compute. reflexivity.
  - vm_compute. reflexivity.
  - exists m'. split; [ exact Hrun | ]. rewrite Hcams. vm_compute. reflexivity.
Defined.

(** C3 as stated fails: each camera is put at the head of the manager's
    list, so the front-facing camera, registered second, comes before the
    back-facing one. *)
Lemma detection_as_specified_counterexample :
  ~ detection_as_specified MockRuns.empty_manager.
Proof.
  intros (m' & back & front & Hrun & (l1 & l2 & l3 & Hl & Hold) & Hback & _).
  vm_compute in Hrun. injection Hrun as <-.
  cbn [state cams MockRuns.empty_manager] in Hl, Hold.
  destruct l1; [ | discriminate Hold ]. destruct l2; [ | discriminate Hold ].
  destruct l3; [ | discriminate Hold ].
  injection Hl as <- _. discriminate Hback.
Qed.

(** ** The frame slot *)

Section FrameSlot.

Context {W : Type} {P : Ndk W}.

Implicit Type m : Machine AndroidCamera2Context W.

(** The store a frame already in the slot stands for. *)
Let pending (o : option mblk_t) : list SlotOp :=
  match o with
  | Some b => [Store b]
  | None => []
  end.

Lemma store_frame_run m b :
  store_frame b m =
  Done (tt, {| state := set_frame (Some b) (state m); world := world m;
               trace := match frame (state m) with
                        | Some old => Freemsg old :: trace m
                        | None => trace m
                        end |}).
Proof. unfold store_frame. exec. destruct (frame (state m)); reflexivity. Qed.

Lemma process_run m f t :
  filter (state m) = Some f -> ticker f = Some t ->
  android_camera2_capture_process m =
  Done (tt, match frame (state m) with
            | Some b =>
                {| state := set_frame None (state m);
                   world := ms_video_update_average_fps (world m) (time t);
                   trace := QueuePut b (time t * 90) :: trace m |}
            | None => m
            end).
Proof.
  intros Hf Ht. unfold android_camera2_capture_process. exec.
  destruct (frame (state m)); [ | reflexivity ].
  rewrite Hf. exec. rewrite Ht. reflexivity.
Qed.

Lemma frees_snoc l e :
  frees (l ++ [e]) = frees l ++ match e with Freemsg b => [b] | _ => [] end.
Proof. unfold frees. rewrite flat_map_app. cbn. now rewrite app_nil_r. Qed.

Lemma deliveries_snoc l e :
  deliveries (l ++ [e]) = deliveries l ++ match e with QueuePut b _ => [b] | _ => [] end.
Proof. unfold deliveries. rewrite flat_map_app. cbn. now rewrite app_nil_r. Qed.

(** A run from any slot: what it adds is what the specification gives for
    the operations, with the frame in the slot counted as just stored. *)
Lemma slot_run_from ops : forall m f t,
  filter (state m) = Some f -> ticker f = Some t ->
  exists m',
    slot_run ops m = Done (tt, m') /\
    deliveries (history m') =
      deliveries (history m) ++ delivered (pending (frame (state m)) ++ ops) /\
    frees (history m') =
      frees (history m) ++ overwritten (pending (frame (state m)) ++ ops) /\
    frame (state m') = held (pending (frame (state m)) ++ ops).
Proof.
  induction ops as [ | op ops IH ]; intros m f t Hf Ht.
  - exists m. split; [ reflexivity | ]. rewrite app_nil_r.
    destruct (frame (state m)); cbn; now rewrite !app_nil_r.
  - destruct op as [b | ]; cbn [slot_run slot_step]; unfold bind.
    + rewrite store_frame_run.
      match goal with
      | |- context [slot_run ops ?m1] =>
          destruct (IH m1 f t Hf Ht) as (m' & Hrun & Hd & Hfr & Hh)
      end.
      exists m'. split; [ exact Hrun | ].
      unfold history in *. cbn [state trace frame set_frame pending app] in Hd, Hfr, Hh.
      rewrite Hd, Hfr, Hh.
      destruct (frame (state m)) as [old | ]; cbn [pending app rev].
      * rewrite frees_snoc, deliveries_snoc, app_nil_r, <- app_assoc.
        repeat split; destruct ops as [ | [ | ] ]; reflexivity.
      * repeat split.
    + rewrite (process_run m f t Hf Ht).
      destruct (frame (state m)) as [b | ] eqn:Hcur; cbn [pending app].
      * match goal with
        | |- context [slot_run ops ?m1] =>
            destruct (IH m1 f t Hf Ht) as (m' & Hrun & Hd & Hfr & Hh)
        end.
        exists m'. split; [ exact Hrun | ].
        unfold history in *. cbn [state trace frame set_frame pending app rev] in Hd, Hfr, Hh.
        rewrite Hd, Hfr, Hh, frees_snoc, deliveries_snoc, app_nil_r, <- app_assoc.
        repeat split.
      * destruct (IH m f t Hf Ht) as (m' & Hrun & Hd & Hfr & Hh).
        exists m'. split; [ exact Hrun | ].
        rewrite Hcur in Hd, Hfr, Hh. cbn [pending app] in Hd, Hfr, Hh.
        rewrite Hd, Hfr, Hh. repeat split.
Qed.

End FrameSlot.

(** Every frame stored is overwritten, delivered or still held, once. *)
Lemma stored_accounted ops :
  Permutation (stored ops) (overwritten ops ++ delivered ops ++ option_list (held ops)).
Proof.
  induction ops as [ | op ops IH ]; [ constructor | ].
  destruct op as [b | ]; [ | exact IH ].
  destruct ops as [ | [c | ] ops ].
  - cbn. constructor. constructor.
  - change (Permutation (b :: stored (Store c :: ops))
              ((b :: overwritten (Store c :: ops)) ++ delivered (Store c :: ops)
               ++ option_list (held (Store c :: ops)))).
    cbn [app]. now constructor.
  - change (Permutation (b :: stored (Drain :: ops))
              (overwritten (Drain :: ops) ++ (b :: delivered (Drain :: ops))
               ++ option_list (held (Drain :: ops)))).
    cbn [app]. now apply Permutation_cons_app.
Qed.

(** C6.  From an empty slot, with a ticker to stamp the frames, every
    sequence of stores and drains runs to its end, and: the frames put on
    the output queue are, in order, those whose store is directly followed
    by a drain (a drain delivers the last frame stored since the previous
    drain, or nothing); the frames freed are, in order, those whose store is
    directly followed by another store; the slot ends holding the last
    frame stored if no drain came after it, and nothing otherwise.  Every
    frame stored is thus freed, delivered or held, each once: when the
    frames stored are distinct, none is freed twice or freed and
    delivered. *)
Theorem frame_slot_latest_wins {W : Type} {P : Ndk W}
    (m : Machine AndroidCamera2Context W) (ops : list SlotOp) :
  frame (state m) = None ->
  (exists f t, filter (state m) = Some f /\ ticker f = Some t) ->
  exists m',
    slot_run ops m = Done (tt, m') /\
    deliveries (history m') = deliveries (history m) ++ delivered ops /\
    frees (history m') = frees (history m) ++ overwritten ops /\
    frame (state m') = held ops /\
    Permutation (stored ops)
      (overwritten ops ++ delivered ops ++ option_list (held ops)) /\
    (NoDup (stored ops) ->
     NoDup (overwritten ops ++ delivered ops ++ option_list (held ops))).
Proof.
  intros Hempty (f & t & Hf & Ht).
  destruct (slot_run_from ops m f t Hf Ht) as (m' & Hrun & Hd & Hfr & Hh).
  rewrite Hempty in Hd, Hfr, Hh. cbn [app] in Hd, Hfr, Hh.
  exists m'. repeat split; try assumption.
  - apply stored_accounted.
  - intros Hnodup. eapply Permutation_NoDup; [ apply stored_accounted | exact Hnodup ].
Qed.

Lemma frame_slot_latest_wins_witness :
  exists m',
    slot_run [Store 1%nat; Store 2%nat; Drain; Drain; Store 3%nat]
      (MockRuns.boot Mock.phone) = Done (tt, m') /\
    deliveries (history m') = [2%nat] /\
    frees (history m') = [1%nat] /\
    frame (state m') = Some 3%nat.
Proof.
  destruct (frame_slot_latest_wins (MockRuns.boot Mock.phone)
              [Store 1%nat; Store 2%nat; Drain; Drain; Store 3%nat])
    as (m' & Hrun & Hd & Hf & Hh & _).
  - reflexivity.
  - exists {| ticker := Some {| time := 1000 |} |}, {| time := 1000 |}.
    split; reflexivity.
  - exists m'. exact (conj Hrun (conj Hd (conj Hf Hh))).
Defined.

(** ** The model on small inputs *)

Example orientation_back_upright : get_orientation Mock.back_camera 0 = 90.
Proof. reflexivity. Qed.

Example orientation_back_turned : get_orientation Mock.back_camera 270 = 180.
Proof. reflexivity. Qed.

Example orientation_front_turned : get_orientation Mock.front_camera 90 = 0.
Proof. reflexivity. Qed.

Example image_size_transposed : image_size 90 640 480 = (480, 640).
Proof. reflexivity. Qed.

Example choose_size_exact :
  choose_size 35 {| width := 640; height := 480 |}
    [Mock.yuv 1280 720; Mock.yuv 640 480; Mock.yuv 320 240]
  = {| width := 640; height := 480 |}.
Proof. reflexivity. Qed.

Example choose_size_closest :
  choose_size 35 {| width := 800; height := 600 |}
    [Mock.yuv 1280 720; Mock.yuv 640 480; Mock.yuv 320 240]
  = {| width := 640; height := 480 |}.
Proof. reflexivity. Qed.

Example choose_size_tie_first :
  choose_size 35 {| width := 10; height := 10 |} [Mock.yuv 10 9; Mock.yuv 10 11]
  = {| width := 10; height := 9 |}.
Proof. reflexivity. Qed.

Example choose_size_tie_first_reversed :
  choose_size 35 {| width := 10; height := 10 |} [Mock.yuv 10 11; Mock.yuv 10 9]
  = {| width := 10; height := 11 |}.
Proof. reflexivity. Qed.

Example choose_size_skips_inputs :
  choose_size 35 {| width := 640; height := 480 |}
    [{| sc_format := 35; sc_width := 640; sc_height := 480; sc_input := 1 |};
     Mock.yuv 320 240]
  = {| width := 320; height := 240 |}.
Proof. reflexivity. Qed.

(** * Further properties of the code *)

(** ** Releasing *)

Lemma release_calls_set d : Forall (fun c => released_handle c <> nullptr) (release_calls d).
Proof.
  unfold release_calls, is_null.
  repeat match goal with
         | |- context [if ?h =? nullptr then _ else _] =>
             destruct (Z.eqb_spec h nullptr)
         end;
    cbn [app]; repeat (apply Forall_cons; [ cbn; assumption | ]); apply Forall_nil.
Qed.

(** X1.  Stopping a running capture returns, whatever the platform answers,
    provided an open camera has a device behind it.  The calls it makes are
    the release of each handle that is set, once, in the order session,
    output target, request, removal of the output from the container,
    session output, window, image reader, container, camera; no release is
    made on a null handle, and the context is left with every handle null
    and the rest as it was. *)
Theorem stop_releases_what_is_held {W : Type} {P : Ndk W}
    (m : Machine AndroidCamera2Context W) :
  capturing (state m) = true ->
  device (state m) <> None \/ cameraDevice (state m) = nullptr ->
  exists m' events,
    android_camera2_capture_stop m = Done (tt, m') /\
    trace m' = events ++ trace m /\
    ndk_calls (rev events) = release_calls (state m) /\
    Forall (fun c => released_handle c <> nullptr) (ndk_calls (rev events)) /\
    handles_null (state m') /\
    capturing (state m') = false /\
    configuration (state m') = configuration (state m).
Proof.
  intros Hrun Hdev.
  destruct (stop_running_releases m Hrun Hdev) as (m' & events & H1 & H2 & H3 & _ & H5).
  exists m', events. rewrite H5, H2.
  repeat split; try assumption.
  - apply release_calls_set.
  - apply stopped_handles_null.
Qed.

Lemma stop_releases_what_is_held_witness :
  exists m' events,
    android_camera2_capture_stop
      (MockRuns.after [SetVsize {| width := 640; height := 480 |}]
         (MockRuns.boot Mock.phone)) = Done (tt, m') /\
    ndk_calls (rev events) =
      [ACameraOutputTarget_free 4102; ACaptureRequest_free 4103;
       ACaptureSessionOutputContainer_remove 4099 4104; ACaptureSessionOutput_free 4104;
       ANativeWindow_release 4101; AImageReader_delete 4100;
       ACaptureSessionOutputContainer_free 4099; ACameraDevice_close 4098].
Proof.
  destruct (stop_releases_what_is_held
              (MockRuns.after [SetVsize {| width := 640; height := 480 |}]
                 (MockRuns.boot Mock.phone)))
    as (m' & events & Hrun & _ & Hcalls & _).
  - vm_compute. reflexivity.
  - left. vm_compute. discriminate.
  - exists m', events. split; [ exact Hrun | ]. rewrite Hcalls. vm_compute. reflexivity.
Defined.

(** ** Starting, path by path *)

Section StartOutcome.

Context {W : Type} {P : Ndk W}.

Implicit Type m : Machine AndroidCamera2Context W.

(** A start that passes its two guards returns; it leaves the configuration
    and the session alone, opens a camera only for a device, and counts the
    capture as running exactly when it logged neither of the two errors it
    returns on. *)
Lemma start_outcome m :
  width (captureSize (state m)) <> 0 ->
  height (captureSize (state m)) <> 0 ->
  capturing (state m) = false ->
  exists m' events,
    android_camera2_capture_start m = Done (tt, m') /\
    trace m' = events ++ trace m /\
    configuration (state m') = configuration (state m) /\
    captureSession (state m') = captureSession (state m) /\
    (cameraDevice (state m') = cameraDevice (state m) \/ device (state m) <> None) /\
    capturing (state m') =
      negb (error_logged "Failed to create image reader" events
            || error_logged "Capture window couldn't be acquired" events) /\
    (capturing (state m') = true ->
     exists request events',
       events = Log Message "Capture started"
                  :: Call (ACameraCaptureSession_setRepeatingRequest
                             (captureSession (state m)) 1 request)
                  :: events') /\
    Forall log_or_call events.
Proof.
  destruct m as [[f c dev rot [sw sh] fmt fr h1 h2 h3 h4 h5 h6 h7 h8] w t].
  cbn [state capturing captureSize width height]. intros Hw Hh ->.
  apply Z.eqb_neq in Hw, Hh.
  unfold android_camera2_capture_start, android_camera2_capture_open_camera,
    configuration.
  exec. cbn [captureSize width height capturing]. rewrite Hw, Hh. cbn [orb].
  unfold is_null. cbn -[Z.eqb].
  destruct (h1 =? nullptr); [ destruct dev | ]; cbn -[Z.eqb];
    repeat (branch; cbn -[Z.eqb]).
  all: do 2 eexists; split; [ reflexivity | ]; cbn -[Z.eqb].
  all: split; [ new_events | ].
  all: split; [ reflexivity | ]. all: split; [ reflexivity | ].
  all: split; [ first [ left; reflexivity | right; discriminate ] | ].
  all: split; [ reflexivity | ].
  all: split; [ first [ discriminate | intros _; do 2 eexists; reflexivity ] | ].
  all: repeat (apply Forall_cons; [ exact I | ]); apply Forall_nil.
Qed.

End StartOutcome.

(** X2.  A start that passes its guards (a size is set, no capture is
    running) returns whatever the platform answers.  It never touches the
    filter, device, rotation, size, format, frame or session of the context.
    The capture counts as running afterwards exactly when neither the image
    reader nor its window failed; a camera that could not be opened or a
    capture request that could not be created does not prevent it.  When the
    capture counts as running, the last call made was the repeating request,
    on the session of the context. *)
Theorem start_runs_unless_reader_or_window_fails {W : Type} {P : Ndk W}
    (m : Machine AndroidCamera2Context W) :
  width (captureSize (state m)) <> 0 ->
  height (captureSize (state m)) <> 0 ->
  capturing (state m) = false ->
  exists m' events,
    android_camera2_capture_start m = Done (tt, m') /\
    trace m' = events ++ trace m /\
    configuration (state m') = configuration (state m) /\
    captureSession (state m') = captureSession (state m) /\
    capturing (state m') =
      negb (error_logged "Failed to create image reader" events
            || error_logged "Capture window couldn't be acquired" events) /\
    (capturing (state m') = true ->
     exists request events',
       events = Log Message "Capture started"
                  :: Call (ACameraCaptureSession_setRepeatingRequest
                             (captureSession (state m)) 1 request)
                  :: events').
Proof.
  intros Hw Hh Hidle.
  destruct (start_outcome m Hw Hh Hidle)
    as (m' & events & H1 & H2 & H3 & H4 & _ & H6 & H7 & _).
  exists m', events. auto 10.
Qed.

Lemma start_runs_unless_reader_or_window_fails_witness :
  exists m',
    android_camera2_capture_start
      (MockRuns.asking {| width := 640; height := 480 |} MockRuns.no_reader)
    = Done (tt, m') /\
    configuration (state m') =
      configuration
        (state (MockRuns.asking {| width := 640; height := 480 |} MockRuns.no_reader)).
Proof.
  destruct (start_runs_unless_reader_or_window_fails
              (MockRuns.asking {| width := 640; height := 480 |} MockRuns.no_reader))
    as (m' & events & Hrun & _ & Hconf & _).
  - discriminate.
  - discriminate.
  - reflexivity.
  - exists m'. exact (conj Hrun Hconf).
Defined.

(** X3.  Start then stop is a round trip on the handles: from a filter
    whose open camera, if any, has a device behind it, a start that leaves
    the capture running is undone by the stop that follows, which returns
    with every handle null and the configuration as it was before the
    start. *)
Theorem start_then_stop_releases_everything {W : Type} {P : Ndk W}
    (m : Machine AndroidCamera2Context W) :
  device (state m) <> None \/ cameraDevice (state m) = nullptr ->
  width (captureSize (state m)) <> 0 ->
  height (captureSize (state m)) <> 0 ->
  capturing (state m) = false ->
  exists m1,
    android_camera2_capture_start m = Done (tt, m1) /\
    (capturing (state m1) = true ->
     exists m2,
       android_camera2_capture_stop m1 = Done (tt, m2) /\
       handles_null (state m2) /\
       capturing (state m2) = false /\
       configuration (state m2) = configuration (state m)).
Proof.
  intros Hdev Hw Hh Hidle.
  destruct (start_outcome m Hw Hh Hidle)
    as (m1 & events & H1 & _ & Hconf & _ & Hcam & _).
  exists m1. split; [ exact H1 | ]. intros Hrun.
  assert (Hsame : device (state m1) = device (state m))
    by (unfold configuration in Hconf; congruence).
  assert (Hdev1 : device (state m1) <> None \/ cameraDevice (state m1) = nullptr).
  { rewrite Hsame. destruct Hcam as [-> | Hcam]; [ exact Hdev | now left ]. }
  destruct (stop_running m1 Hrun Hdev1) as (m2 & ev2 & H2 & Hst & _).
  exists m2. split; [ exact H2 | ]. rewrite Hst.
  split; [ apply stopped_handles_null | ]. split; [ reflexivity | ].
  rewrite <- Hconf. reflexivity.
Qed.

Lemma start_then_stop_releases_everything_witness :
  exists m1 m2,
    android_camera2_capture_start
      (MockRuns.asking {| width := 640; height := 480 |} Mock.phone) = Done (tt, m1) /\
    android_camera2_capture_stop m1 = Done (tt, m2) /\
    handles_null (state m2).
Proof.
  destruct (start_then_stop_releases_everything
              (MockRuns.asking {| width := 640; height := 480 |} Mock.phone))
    as (m1 & Hstart & Hstop).
  - left. discriminate.
  - discriminate.
  - discriminate.
  - reflexivity.
  - assert (Hm : m1 = MockRuns.after [Start]
                   (MockRuns.asking {| width := 640; height := 480 |} Mock.phone)).
    { unfold MockRuns.after. cbn [run step]. unfold bind at 1. rewrite Hstart.
      reflexivity. }
    destruct Hstop as (m2 & Hstop & Hnull & _).
    + rewrite Hm. vm_compute. reflexivity.
    + exists m1, m2. auto.
Defined.

(** ** The image callback, path by path *)

Lemma quiet_deletions l : Forall quiet l -> deletions l = [].
Proof.
  induction 1 as [ | e l He _ IH ]; [ reflexivity | ].
  unfold deletions in *. cbn. rewrite IH.
  destruct e as [ | c | | | ]; try reflexivity. now destruct c.
Qed.

Lemma quiet_frees l : Forall quiet l -> frees l = [].
Proof.
  induction 1 as [ | e l He _ IH ]; [ reflexivity | ].
  unfold frees in *. cbn. rewrite IH. now destruct e.
Qed.

Lemma quiet_deliveries l : Forall quiet l -> deliveries l = [].
Proof.
  induction 1 as [ | e l He _ IH ]; [ reflexivity | ].
  unfold deliveries in *. cbn. rewrite IH. now destruct e.
Qed.

Section Callback.

Context {W : Type} {P : Ndk W}.

Implicit Type m : Machine AndroidCamera2Context W.

(** The conversion reads the image and asks the host for a block; it needs
    the device for the orientation. *)
Lemma image_to_mblkt_described m dev image :
  device (state m) = Some dev ->
  exists b m' events,
    android_camera2_capture_image_to_mblkt image m = Done (b, m') /\
    state m' = state m /\
    trace m' = events ++ trace m /\
    Forall quiet events.
Proof.
  intros Hdev. destruct m as [d w t]. cbn [state] in Hdev.
  unfold android_camera2_capture_image_to_mblkt, android_camera2_capture_get_orientation.
  exec. rewrite Hdev. exec.
  repeat match goal with
         | |- context [ndk_reply ?w ?c] =>
             is_var w; destruct (ndk_reply w c) as [? ?]; exec
         end.
  destruct (image_size _ _ _) as [width height]. exec.
  repeat match goal with
         | |- context [ndk_reply ?w ?c] =>
             is_var w; destruct (ndk_reply w c) as [? ?]; exec
         end.
  destruct (value _ =? 1); exec;
    match goal with
    | |- context [yuv_copy ?w ?c] => destruct (yuv_copy w c) as [? ?]
    end;
    do 3 eexists; (split; [ reflexivity | ]); cbn [state trace];
    (split; [ reflexivity | ]); (split; [ new_events | ]);
    repeat (apply Forall_cons; [ exact I | ]); apply Forall_nil.
Qed.

Lemma image_to_mblkt_undescribed m image :
  device (state m) = None ->
  android_camera2_capture_image_to_mblkt image m = Fault.
Proof.
  intros Hdev.
  unfold android_camera2_capture_image_to_mblkt, android_camera2_capture_get_orientation.
  exec. now rewrite Hdev.
Qed.

(** What a block of quiet events, between events that are known, frees,
    queues and deletes. *)
Ltac observe :=
  unfold deletions, frees, deliveries; cbn [flat_map app];
  rewrite ?flat_map_app; cbn [flat_map app];
  repeat match goal with
         | H : Forall quiet ?ev |- _ =>
             first [ rewrite (quiet_deletions ev H : flat_map _ ev = [])
                   | rewrite (quiet_frees ev H : flat_map _ ev = [])
                   | rewrite (quiet_deliveries ev H : flat_map _ ev = []) ]
         end;
  cbn [app].

(** Every path through the image callback. *)
Lemma callback_outcome m reader :
  match android_camera2_capture_on_image_available reader m with
  | Done (_, m') =>
      exists events,
        trace m' = events ++ trace m /\
        set_frame None (state m') = set_frame None (state m) /\
        deletions events =
          (if acquired m reader then [out (acquire_reply m reader)] else []) /\
        deliveries events = [] /\
        ((frame (state m') = frame (state m) /\ frees events = []) \/
         (capturing (state m) = true /\ acquired m reader = true /\
          (exists b, frame (state m') = Some b) /\
          frees events = option_list (frame (state m))))
  | Fault =>
      capturing (state m) = true /\ acquired m reader = true /\
      (filter (state m) = None \/
       (exists f, filter (state m) = Some f /\ ticker f = None) \/
       device (state m) = None)
  end.
Proof.
  destruct m as [d w t].
  unfold android_camera2_capture_on_image_available, acquired, format_reply,
    acquire_reply.
  exec. cbn [state world fst snd].
  destruct (ndk_reply w (AImageReader_getFormat reader)) as [w1 r1]. cbn [fst snd]. exec.
  destruct (value r1 =? captureFormat d); exec; cbn [andb].
  2: { eexists. split; [ new_events | ]. repeat split. left. split; reflexivity. }
  destruct (ndk_reply w1 (AImageReader_acquireNextImage reader)) as [w2 r2].
  cbn [fst snd]. exec.
  destruct (status r2 =? AMEDIA_OK); exec.
  2: { eexists. split; [ new_events | ]. repeat split. left. split; reflexivity. }
  destruct (capturing d) eqn:Hcap; exec.
  2: { destruct (ndk_reply w2 (AImage_delete (out r2))) as [w3 r3].
       eexists. split; [ new_events | ]. repeat split. left. split; reflexivity. }
  destruct (filter d) as [f | ] eqn:Hf; exec; [ | auto ].
  unfold filter_destroyed. exec. rewrite Hf. exec.
  destruct (ticker f) as [tk | ] eqn:Htk; exec.
  2: { split; [ reflexivity | ]. split; [ reflexivity | ].
       right. left. exists f. split; [ reflexivity | exact Htk ]. }
  destruct (ms_video_capture_new_frame w2 (time tk)) as [w3 fresh]. exec.
  destruct fresh; exec.
  2: { destruct (ndk_reply w3 (AImage_delete (out r2))) as [w4 r4].
       eexists. split; [ new_events | ]. repeat split. left. split; reflexivity. }
  destruct (device d) as [dev | ] eqn:Hdev.
  2: { rewrite image_to_mblkt_undescribed by exact Hdev. auto. }
  match goal with
  | |- context [android_camera2_capture_image_to_mblkt ?i ?m1] =>
      destruct (image_to_mblkt_described m1 dev i Hdev)
        as (b & m' & events & Hrun & Hstate & Htrace & Hquiet); rewrite Hrun
  end.
  destruct m' as [d' w' t']. cbn [state trace] in Hstate, Htrace. subst d' t'.
  destruct b as [b | ]; exec.
  - rewrite store_frame_run. cbn [state world trace].
    destruct (ndk_reply w' (AImage_delete (out r2))) as [w4 r4].
    destruct (frame d) as [old | ] eqn:Hfr; cbn [state trace].
    + exists (Call (AImage_delete (out r2)) :: Freemsg old :: events
              ++ [Call (AImageReader_acquireNextImage reader);
                  Call (AImageReader_getFormat reader)]).
      split; [ cbn; now rewrite <- app_assoc | ].
      split; [ reflexivity | ]. split; [ now observe | ]. split; [ now observe | ].
      right. split; [ assumption || reflexivity | ]. split; [ reflexivity | ].
      split; [ eexists; reflexivity | now observe ].
    + exists (Call (AImage_delete (out r2)) :: events
              ++ [Call (AImageReader_acquireNextImage reader);
                  Call (AImageReader_getFormat reader)]).
      split; [ cbn; now rewrite <- app_assoc | ].
      split; [ reflexivity | ]. split; [ now observe | ]. split; [ now observe | ].
      right. split; [ assumption || reflexivity | ]. split; [ reflexivity | ].
      split; [ eexists; reflexivity | now observe ].
  - destruct (ndk_reply w' (AImage_delete (out r2))) as [w4 r4]. cbn [state trace].
    exists (Call (AImage_delete (out r2)) :: events
            ++ [Call (AImageReader_acquireNextImage reader);
                Call (AImageReader_getFormat reader)]).
    split; [ cbn; now rewrite <- app_assoc | ].
    split; [ reflexivity | ]. split; [ now observe | ]. split; [ now observe | ].
    left. split; [ reflexivity | now observe ].
Qed.

End Callback.

Lemma same_but_frame d d' :
  set_frame None d' = set_frame None d -> frame d' = frame d -> d' = d.
Proof.
  destruct d, d'. unfold set_frame. cbn. intros H Hf. injection H. intros. now subst.
Qed.



(** X5.  Whenever the image callback returns, it has deleted the image it
    acquired, once, if the reader had the capture format and the
    acquisition succeeded, and it has deleted nothing otherwise: no image is
    leaked or deleted twice, whether the frame was converted, dropped by the
    frame-rate controller or dropped because no capture is running. *)
Theorem callback_deletes_its_image_once {W : Type} {P : Ndk W}
    (m m' : Machine AndroidCamera2Context W) (reader : pointer) :
  android_camera2_capture_on_image_available reader m = Done (tt, m') ->
  exists events,
    trace m' = events ++ trace m /\
    deletions events =
      (if acquired m reader then [out (acquire_reply m reader)] else []).
Proof.
  intros Hrun. pose proof (callback_outcome m reader) as H. rewrite Hrun in H.
  destruct H as (events & H1 & _ & H3 & _).
  exists events. split; assumption.
Qed.

Lemma callback_deletes_its_image_once_witness :
  exists events,
    trace (MockRuns.after [SetVsize {| width := 640; height := 480 |}; ImageAvailable 7]
             (MockRuns.boot Mock.phone)) =
    events ++ trace (MockRuns.after [SetVsize {| width := 640; height := 480 |}]
                       (MockRuns.boot Mock.phone)) /\
    deletions events = [4105].
Proof.
  destruct (callback_deletes_its_image_once
              (MockRuns.after [SetVsize {| width := 640; height := 480 |}]
                 (MockRuns.boot Mock.phone))
              (MockRuns.after [SetVsize {| width := 640; height := 480 |};
                               ImageAvailable 7]
                 (MockRuns.boot Mock.phone)) 7)
    as (events & Htrace & Hdel).
  - vm_compute. reflexivity.
  - exists events. split; [ exact Htrace | ]. rewrite Hdel. vm_compute. reflexivity.
Defined.

(** X6.  While no capture is running the image callback always returns and
    leaves the whole context as it was, the frame slot included: an image
    that arrives after a stop is acquired, deleted and dropped, with nothing
    converted, stored, freed or queued. *)
Theorem callback_drops_images_when_idle {W : Type} {P : Ndk W}
    (m : Machine AndroidCamera2Context W) (reader : pointer) :
  capturing (state m) = false ->
  exists m' events,
    android_camera2_capture_on_image_available reader m = Done (tt, m') /\
    state m' = state m /\
    trace m' = events ++ trace m /\
    frees events = [] /\ deliveries events = [] /\
    deletions events =
      (if acquired m reader then [out (acquire_reply m reader)] else []).
Proof.
  intros Hidle. pose proof (callback_outcome m reader) as H.
  destruct (android_camera2_capture_on_image_available reader m) as [[[] m'] | ].
  - destruct H as (events & H1 & H2 & H3 & H4 & H5).
    assert (Hslot : frame (state m') = frame (state m) /\ frees events = []).
    { destruct H5 as [H5 | (Hc & _)]; [ exact H5 | congruence ]. }
    exists m', events. split; [ reflexivity | ].
    split; [ apply same_but_frame; tauto | ]. tauto.
  - destruct H as (Hc & _). congruence.
Qed.

Lemma callback_drops_images_when_idle_witness :
  exists m',
    android_camera2_capture_on_image_available 7 (MockRuns.boot Mock.phone)
    = Done (tt, m') /\
    state m' = state (MockRuns.boot Mock.phone).
Proof.
  destruct (callback_drops_images_when_idle (MockRuns.boot Mock.phone) 7)
    as (m' & events & Hrun & Hstate & _).
  - reflexivity.
  - exists m'. exact (conj Hrun Hstate).
Defined.

(** X7.  The image callback reads through [d->filter->ticker] without a
    test that can stop it: while a capture is running, with an image
    acquired, a filter whose ticker is detached makes it fault.  Conversely
    it faults only while a capture is running with an image acquired, and
    then only for a null filter, a null ticker or a null device. *)
Theorem callback_faults_without_ticker {W : Type} {P : Ndk W}
    (m : Machine AndroidCamera2Context W) (reader : pointer) :
  (capturing (state m) = true -> acquired m reader = true ->
   (exists f, filter (state m) = Some f /\ ticker f = None) ->
   android_camera2_capture_on_image_available reader m = Fault) /\
  (android_camera2_capture_on_image_available reader m = Fault ->
   capturing (state m) = true /\ acquired m reader = true /\
   (filter (state m) = None \/
    (exists f, filter (state m) = Some f /\ ticker f = None) \/
    device (state m) = None)).
Proof.
  split.
  - intros Hcap Hacq (f & Hf & Htk).
    unfold acquired, format_reply, acquire_reply in Hacq.
    apply andb_true_iff in Hacq as [Hfmt Hst].
    destruct m as [d w t]. cbn [state world] in *.
    unfold android_camera2_capture_on_image_available, filter_destroyed. exec.
    destruct (ndk_reply w (AImageReader_getFormat reader)) as [w1 r1].
    cbn [fst snd] in *. exec. rewrite Hfmt. exec.
    destruct (ndk_reply w1 (AImageReader_acquireNextImage reader)) as [w2 r2].
    cbn [fst snd] in *. exec. rewrite Hst. exec. rewrite Hcap. exec. rewrite Hf. exec.
    rewrite Hf. exec. now rewrite Htk.
  - intros Hrun. pose proof (callback_outcome m reader) as H.
    rewrite Hrun in H. exact H.
Qed.

(** ** The negotiated size *)

Section Negotiated.

Variables (format : Z) (asked : MSVideoSize).

Let stepf := choose_step format (mul32 (width asked) (height asked)) asked.

Let exact (c : StreamConfiguration) : bool :=
  is_candidate format c && ((sc_width c =? width asked) && (sc_height c =? height asked)).

(** The sizes of the format that are not the size asked for. *)
Let others (l : list StreamConfiguration) : list MSVideoSize :=
  map size_of (List.filter (fun c => is_candidate format c && negb (exact c)) l).

Lemma step_found_exact b c : found (stepf b c) = found b || exact c.
Proof.
  subst stepf exact. unfold choose_step, is_candidate. cbn.
  destruct (sc_input c =? 0); cbn; [ | now rewrite orb_false_r ].
  destruct (sc_format c =? format); cbn; [ | now rewrite orb_false_r ].
  destruct ((sc_width c =? width asked) && (sc_height c =? height asked)); cbn.
  - now rewrite orb_true_r.
  - rewrite orb_false_r. now destruct ((mul32 _ _ =? 0) || _).
Qed.

Lemma fold_found_exact l : forall b,
  found (fold_left stepf l b) = found b || existsb exact l.
Proof.
  induction l as [ | c l IH ]; intros b; cbn.
  - now rewrite orb_false_r.
  - now rewrite IH, step_found_exact, orb_assoc.
Qed.

Lemma in_candidates_exact l :
  In asked (candidates format l) <-> existsb exact l = true.
Proof.
  unfold candidates. rewrite in_map_iff, existsb_exists.
  assert (Hspec : forall c, exact c = true <->
                            is_candidate format c = true /\ size_of c = asked).
  { intros c. subst exact. cbn beta.
    rewrite !andb_true_iff, !Z.eqb_eq. destruct asked as [aw ah]. unfold size_of. cbn.
    split; [ intros (Hc & -> & ->); auto | intros (Hc & H); injection H; auto ]. }
  split.
  - intros (c & Hc & Hin). apply filter_In in Hin. exists c. split; [ tauto | ].
    apply Hspec. tauto.
  - intros (c & Hin & Hc). apply Hspec in Hc. exists c. split; [ tauto | ].
    apply filter_In. tauto.
Qed.

Lemma step_skips b c : is_candidate format c = false -> stepf b c = b.
Proof.
  subst stepf. unfold choose_step, is_candidate.
  destruct (sc_input c =? 0); cbn; [ | reflexivity ].
  destruct (sc_format c =? format); [ discriminate | reflexivity ].
Qed.

Lemma choose_loop_filtered l : forall b,
  fold_left stepf (List.filter (is_candidate format) l) b = fold_left stepf l b.
Proof.
  induction l as [ | c l IH ]; intros b; [ reflexivity | ].
  cbn [List.filter fold_left]. destruct (is_candidate format c) eqn:Hc.
  - cbn [fold_left]. apply IH.
  - rewrite (step_skips b c Hc). apply IH.
Qed.

(** Once a size other than the one asked for has been seen, the backup is
    one of those seen: the empty backup has area zero and is replaced by
    the first. *)
Lemma step_backup_seen seen b c :
  (seen = [] /\ mul32 (width (backupSize b)) (height (backupSize b)) = 0)
  \/ In (backupSize b) seen ->
  let seen' := seen ++ (if is_candidate format c && negb (exact c)
                        then [size_of c] else []) in
  (seen' = [] /\ mul32 (width (backupSize (stepf b c))) (height (backupSize (stepf b c))) = 0)
  \/ In (backupSize (stepf b c)) seen'.
Proof.
  intros Hb seen'. subst seen'.
  destruct (is_candidate format c) eqn:Hc.
  2: { rewrite (step_skips b c Hc). cbn. now rewrite app_nil_r. }
  cbn [andb]. subst exact. cbn beta. rewrite Hc. cbn [andb].
  unfold is_candidate in Hc. apply andb_true_iff in Hc as [Hin Hfmt].
  subst stepf. unfold choose_step. rewrite Hin, Hfmt. cbn [negb].
  destruct ((sc_width c =? width asked) && (sc_height c =? height asked)); cbn [negb].
  - cbn [backupSize]. now rewrite app_nil_r.
  - right. destruct Hb as [[-> Hzero] | Hseen].
    + rewrite Hzero. cbn. now left.
    + destruct ((_ =? 0) || _); cbn [backupSize]; apply in_or_app.
      * right. now left.
      * now left.
Qed.

Lemma fold_backup_seen l : forall seen b,
  (seen = [] /\ mul32 (width (backupSize b)) (height (backupSize b)) = 0)
  \/ In (backupSize b) seen ->
  (seen ++ others l = []
   /\ mul32 (width (backupSize (fold_left stepf l b)))
        (height (backupSize (fold_left stepf l b))) = 0)
  \/ In (backupSize (fold_left stepf l b)) (seen ++ others l).
Proof.
  induction l as [ | c l IH ]; intros seen b Hb.
  - subst others. cbn. now rewrite app_nil_r.
  - cbn [fold_left].
    assert (Hsplit : seen ++ others (c :: l) =
                     (seen ++ (if is_candidate format c && negb (exact c)
                               then [size_of c] else [])) ++ others l).
    { subst others. cbn. destruct (is_candidate format c && negb (exact c)); cbn;
        now rewrite <- app_assoc. }
    rewrite Hsplit. apply IH. apply step_backup_seen, Hb.
Qed.

Lemma others_all l :
  existsb exact l = false -> others l = candidates format l.
Proof.
  intros Hno. subst others. unfold candidates. f_equal.
  induction l as [ | c l IH ]; [ reflexivity | ].
  cbn in Hno. apply orb_false_iff in Hno as [Hc Hl]. cbn [List.filter].
  rewrite Hc, andb_true_r. now rewrite (IH Hl).
Qed.

(** Without an exact match the size chosen is one of the format's sizes, as
    soon as there is one. *)
Lemma choose_size_offered l :
  existsb exact l = false -> candidates format l <> [] ->
  In (choose_size format asked l) (candidates format l).
Proof.
  intros Hno Hsome. unfold choose_size, choose_loop. fold stepf.
  rewrite fold_found_exact, Hno. cbn [found orb].
  destruct (fold_backup_seen l [] {| backupSize := {| width := 0; height := 0 |};
                                     found := false |}) as [[Hnil _] | Hin].
  - left. split; reflexivity.
  - cbn [app] in Hnil. rewrite (others_all l Hno) in Hnil. contradiction.
  - cbn [app] in Hin. now rewrite (others_all l Hno) in Hin.
Qed.

Lemma choose_size_asked l :
  In asked (candidates format l) -> choose_size format asked l = asked.
Proof.
  intros Hin. apply in_candidates_exact in Hin.
  unfold choose_size, choose_loop. fold stepf.
  now rewrite fold_found_exact, Hin, orb_true_r.
Qed.

Lemma choose_size_member l :
  candidates format l <> [] -> In (choose_size format asked l) (candidates format l).
Proof.
  intros Hsome. destruct (existsb exact l) eqn:E.
  - apply in_candidates_exact in E. now rewrite (choose_size_asked l E).
  - now apply choose_size_offered.
Qed.

End Negotiated.

Lemma choose_size_none format asked l :
  candidates format l = [] -> choose_size format asked l = {| width := 0; height := 0 |}.
Proof.
  intros Hnone. unfold choose_size.
  now rewrite (choose_loop_no_candidate format asked l Hnone).
Qed.

(** X8.  The size the negotiation ends with is always accounted for: it is
    the size asked for when that size is among the output sizes of the
    capture format, one of those sizes when there are some, and (0,0) when
    there is none.  Input entries and entries of other formats play no part:
    dropping them from the list changes nothing. *)
Theorem choose_size_is_asked_or_offered (format : Z) (asked : MSVideoSize)
    (l : list StreamConfiguration) :
  (In asked (candidates format l) -> choose_size format asked l = asked) /\
  (candidates format l <> [] -> In (choose_size format asked l) (candidates format l)) /\
  (candidates format l = [] ->
   choose_size format asked l = {| width := 0; height := 0 |}) /\
  choose_size format asked (List.filter (is_candidate format) l) =
    choose_size format asked l.
Proof.
  split; [ apply choose_size_asked | ].
  split; [ apply choose_size_member | ].
  split; [ apply choose_size_none | ].
  unfold choose_size, choose_loop. now rewrite choose_loop_filtered.
Qed.

(** X9.  Negotiation settles in one round: asking again for the size the
    negotiation ended with, over the same list, ends with that same size. *)
Theorem choose_size_settles (format : Z) (asked : MSVideoSize)
    (l : list StreamConfiguration) :
  choose_size format (choose_size format asked l) l = choose_size format asked l.
Proof.
  destruct (candidates format l) as [ | s rest ] eqn:Hc.
  - now rewrite !(choose_size_none format _ l Hc).
  - apply choose_size_asked, choose_size_member. rewrite Hc. discriminate.
Qed.

(** ** A change of size *)

Section Resize.

Context {W : Type} {P : Ndk W}.

Implicit Type m : Machine AndroidCamera2Context W.

(** [start] always returns; what it leaves alone, and when it can leave a
    capture running. *)
Lemma start_returns m :
  exists m' events,
    android_camera2_capture_start m = Done (tt, m') /\
    trace m' = events ++ trace m /\
    Forall log_or_call events /\
    configuration (state m') = configuration (state m) /\
    (cameraDevice (state m') = cameraDevice (state m) \/ device (state m) <> None) /\
    (capturing (state m') = true ->
     capturing (state m) = true \/
     (width (captureSize (state m)) <> 0 /\ height (captureSize (state m)) <> 0)).
Proof.
  destruct (Z.eq_dec (width (captureSize (state m))) 0) as [Hw | Hw].
  { rewrite (start_unconfigured m) by now left.
    do 2 eexists. split; [ reflexivity | ]. cbn [state trace].
    split; [ new_events | ]. split; [ repeat constructor | ]. auto. }
  destruct (Z.eq_dec (height (captureSize (state m))) 0) as [Hh | Hh].
  { rewrite (start_unconfigured m) by now right.
    do 2 eexists. split; [ reflexivity | ]. cbn [state trace].
    split; [ new_events | ]. split; [ repeat constructor | ]. auto. }
  destruct (capturing (state m)) eqn:Hcap.
  { destruct (start_running m Hcap) as (text & ->).
    do 2 eexists. split; [ reflexivity | ]. cbn [state trace].
    split; [ new_events | ]. split; [ repeat constructor | ]. auto. }
  destruct (start_outcome m Hw Hh Hcap)
    as (m' & events & H1 & H2 & H3 & _ & H5 & _ & _ & H8).
  exists m', events. auto 10.
Qed.

End Resize.



(** ** One run of the filter *)

Lemma error_logged_message text s l :
  error_logged text (l ++ [Log Message s]) = error_logged text l.
Proof.
  unfold error_logged. rewrite existsb_app. cbn. now rewrite !orb_false_r.
Qed.

Lemma stopped_restores (d d1 : AndroidCamera2Context) :
  handles_null d -> capturing d = false ->
  configuration d1 = configuration d ->
  stopped d1 = d.
Proof.
  destruct d as [f c dev rot sz fmt fr h1 h2 h3 h4 h5 h6 h7 h8].
  unfold handles_null, handles, configuration, stopped. cbn.
  intros Hnull -> Hconf. injection Hconf as -> -> -> -> -> ->.
  repeat match goal with
         | H : Forall _ (_ :: _) |- _ => inversion H; subst; clear H
         end.
  reflexivity.
Qed.

(** X11.  One run of the filter gives the context back.  From a context
    with no handle set and no capture running, [preprocess] and then
    [postprocess] both return, emit only messages and platform calls, and
    leave the context exactly as it was before [preprocess], unless the
    image reader or its window failed in between: then [postprocess] finds
    no capture to stop, makes no platform call, and what the failed start
    had put in the context stays there. *)
Theorem preprocess_postprocess_restores_the_context {W : Type} {P : Ndk W}
    (m : Machine AndroidCamera2Context W) :
  handles_null (state m) ->
  capturing (state m) = false ->
  exists m1 m2 started ended,
    android_camera2_capture_preprocess m = Done (tt, m1) /\
    trace m1 = started ++ trace m /\
    android_camera2_capture_postprocess m1 = Done (tt, m2) /\
    trace m2 = ended ++ trace m1 /\
    Forall log_or_call (ended ++ started) /\
    configuration (state m2) = configuration (state m) /\
    capturing (state m2) = false /\
    (if error_logged "Failed to create image reader" started
        || error_logged "Capture window couldn't be acquired" started
     then state m2 = state m1 /\ ndk_calls ended = []
     else state m2 = state m).
Proof.
  intros Hnull Hidle.
  unfold android_camera2_capture_preprocess, android_camera2_capture_postprocess.
  exec. rewrite Hidle. cbn [negb]. rewrite andb_true_r.
  destruct (negb (width (captureSize (state m)) =? 0)
            && negb (height (captureSize (state m)) =? 0)) eqn:Hguard.
  - apply andb_true_iff in Hguard as [Hw Hh].
    apply negb_true_iff, Z.eqb_neq in Hw, Hh.
    match goal with
    | |- context [android_camera2_capture_start ?m0] =>
        destruct (start_outcome m0 Hw Hh Hidle)
          as (m1 & events & E1 & T1 & C1 & _ & D1 & R1 & _ & F1)
    end.
    cbn [state world trace] in *. rewrite E1. exec.
    assert (Hdev1 : device (state m1) <> None \/ cameraDevice (state m1) = nullptr).
    { destruct D1 as [D1 | D1].
      - right. rewrite D1. now inversion Hnull.
      - left. unfold configuration in C1. congruence. }
    exists {| state := state m1; world := ms_video_init_framerate_controller (world m1);
              trace := trace m1 |}.
    cbn [state world trace].
    destruct (capturing (state m1)) eqn:Hrun.
    + match goal with
      | |- context [android_camera2_capture_stop ?m0] =>
          destruct (stop_running m0 Hrun Hdev1) as (m2 & ev2 & E2 & S2 & T2 & F2)
      end.
      cbn [state world trace] in *.
      exists m2, (events ++ [Log Message "Filter preprocess"]),
        (ev2 ++ [Log Message "Filter postprocess"]).
      split; [ reflexivity | ]. cbn [state world trace].
      split; [ rewrite T1, <- app_assoc; reflexivity | ].
      split; [ exact E2 | ].
      split; [ rewrite T2, <- app_assoc; reflexivity | ].
      split.
      { rewrite !Forall_app. repeat split; try assumption; repeat constructor. }
      rewrite S2. split; [ exact C1 | ]. split; [ reflexivity | ].
      rewrite !error_logged_message.
      symmetry in R1. apply negb_true_iff in R1. rewrite R1.
      apply stopped_restores; assumption.
    + exists {| state := state m1;
                world := ms_video_init_framerate_controller (world m1);
                trace := Log Message "Filter postprocess" :: trace m1 |},
        (events ++ [Log Message "Filter preprocess"]),
        [Log Message "Filter postprocess"].
      split; [ reflexivity | ]. cbn [state world trace].
      split; [ rewrite T1, <- app_assoc; reflexivity | ].
      split; [ reflexivity | ]. split; [ reflexivity | ].
      split.
      { cbn [app]. apply Forall_cons; [ exact I | ].
        rewrite Forall_app. split; [ assumption | repeat constructor ]. }
      split; [ exact C1 | ]. split; [ exact Hrun | ].
      rewrite !error_logged_message.
      symmetry in R1. apply negb_false_iff in R1. rewrite R1. split; reflexivity.
  - exists {| state := state m; world := ms_video_init_framerate_controller (world m);
              trace := Log Message "Filter preprocess" :: trace m |}.
    exec. rewrite Hidle.
    exists {| state := state m; world := ms_video_init_framerate_controller (world m);
              trace := Log Message "Filter postprocess"
                         :: Log Message "Filter preprocess" :: trace m |},
      [Log Message "Filter preprocess"], [Log Message "Filter postprocess"].
    cbn. repeat split; try assumption; repeat constructor.
Qed.

Lemma preprocess_postprocess_restores_the_context_witness :
  exists m1 m2,
    android_camera2_capture_preprocess
      (MockRuns.asking {| width := 640; height := 480 |} Mock.phone) = Done (tt, m1) /\
    android_camera2_capture_postprocess m1 = Done (tt, m2) /\
    capturing (state m2) = false.
Proof.
  destruct (preprocess_postprocess_restores_the_context
              (MockRuns.asking {| width := 640; height := 480 |} Mock.phone))
    as (m1 & m2 & started & ended & H1 & _ & H2 & _ & _ & _ & H3 & _).
  - repeat constructor.
  - reflexivity.
  - exists m1, m2. exact (conj H1 (conj H2 H3)).
Defined.

(** ** Detection in general *)

Section DetectLoop.

Context {W : Type} {P : Ndk W}.

Implicit Type m : Machine MSWebCamManager W.

Hypothesis stable : characteristics_stable.

Lemma described_stable w c ids :
  described (fst (ndk_reply w c)) ids = described w ids.
Proof.
  unfold described. apply flat_map_ext. intros id. cbv zeta.
  now rewrite (stable w c id).
Qed.

(** One turn of the loop on a camera the platform does not describe. *)
Lemma detect_camera_undescribed m id flags :
  fst (ACameraManager_getCameraCharacteristics (world m) id) <> ACAMERA_OK ->
  detect_camera id flags m =
  Done (flags, {| state := state m; world := world m;
                  trace := Log Error "Failed to get camera %s characteristics"
                             :: trace m |}).
Proof.
  intros Hst. apply Z.eqb_neq in Hst. destruct flags as [front_found back_found].
  unfold detect_camera. exec. now rewrite Hst.
Qed.

(** What the loop adds, given the facings already found. *)
Let added (flags : bool * bool) (l : list MSWebCam) : list MSWebCam :=
  match flags with
  | (true, true) => []
  | (false, true) => option_list (find (faces false) l)
  | (true, false) => option_list (find (faces true) l)
  | (false, false) => first_of_each_facing l
  end.

Lemma detect_loop_adds ids : forall flags m,
  exists m' events,
    detect_loop ids flags m = Done (tt, m') /\
    cams (state m') = rev (added flags (described (world m) ids)) ++ cams (state m) /\
    trace m' = events ++ trace m /\
    Forall log_or_call events /\
    (List.length (complaints events)
     + List.length (added flags (described (world m) ids)) = List.length ids)%nat /\
    ndk_calls (rev events) =
      map (fun c => ACameraMetadata_free (camId (cam_data c))) (described (world m) ids).
Proof.
  induction ids as [ | id rest IH ]; intros flags m.
  - exists m, []. cbn. destruct flags as [[|] [|]]; repeat split; constructor.
  - rewrite detect_loop_cons. unfold described. cbn [flat_map]. fold (described (world m) rest).
    destruct (ACameraManager_getCameraCharacteristics (world m) id) as [st md] eqn:Hch.
    cbn [fst snd]. destruct (st =? ACAMERA_OK) eqn:Hst.
    + apply Z.eqb_eq in Hst. subst st.
      rewrite (detect_camera_described m id flags md Hch). cbv beta iota zeta.
      set (back := lens_facing md =? ACAMERA_LENS_FACING_BACK).
      match goal with
      | |- context [detect_loop rest ?f ?m1] =>
          destruct (IH f m1) as (m' & events & E & Hc & Ht & Hf & Hn & Hm)
      end.
      cbn [state world trace] in Hc, Ht, Hn, Hm.
      rewrite described_stable in Hc, Hn, Hm.
      exists m'.
      exists (events ++ Call (ACameraMetadata_free id)
                :: (if (back && negb (snd flags)) || (negb back && negb (fst flags))
                    then [] else [same_direction_warning])
                ++ [Log Message "Camera %s is facing %s with angle %d"]).
      split; [ exact E | ].
      split.
      { rewrite Hc. destruct flags as [[|] [|]], back; cbn [fst snd andb orb negb added];
          unfold first_of_each_facing, faces; cbn;
          rewrite <- ?app_assoc; reflexivity. }
      split.
      { rewrite Ht, <- app_assoc. cbn [app]. rewrite <- app_assoc. reflexivity. }
      split.
      { apply Forall_app. split; [ exact Hf | ].
        apply Forall_cons; [ exact I | ].
        apply Forall_app. split; [ destruct (_ || _) | ]; repeat constructor. }
      split.
      { unfold complaints in *. rewrite filter_app, length_app.
        destruct flags as [[|] [|]], back; cbn [fst snd andb orb negb added] in *;
          unfold first_of_each_facing, faces in *; cbn in *; lia. }
      rewrite rev_app_distr. unfold ndk_calls in *. rewrite flat_map_app, Hm.
      destruct (_ || _); cbn; reflexivity.
    + apply Z.eqb_neq in Hst.
      rewrite (detect_camera_undescribed m id flags)
        by (rewrite Hch; exact Hst).
      destruct (IH flags {| state := state m; world := world m;
                            trace := Log Error "Failed to get camera %s characteristics"
                                       :: trace m |})
        as (m' & events & E & Hc & Ht & Hf & Hn & Hm).
      cbn [state world trace app] in *.
      exists m', (events ++ [Log Error "Failed to get camera %s characteristics"]).
      split; [ exact E | ]. split; [ exact Hc | ].
      split; [ rewrite Ht, <- app_assoc; reflexivity | ].
      split; [ apply Forall_app; split; [ exact Hf | repeat constructor ] | ].
      split.
      { unfold complaints in *. rewrite filter_app, length_app. cbn. lia. }
      rewrite rev_app_distr. cbn. exact Hm.
Qed.

End DetectLoop.

Lemma first_of_each_facing_first (l : list MSWebCam) (c : MSWebCam) :
  In c (first_of_each_facing l) <->
  find (faces true) l = Some c \/ find (faces false) l = Some c.
Proof.
  destruct l as [ | c0 rest ]; cbn [first_of_each_facing find In].
  - split; [ contradiction | intros [H | H]; discriminate H ].
  - unfold faces at 2 4. destruct (back_facing (cam_data c0)); cbn [Bool.eqb negb].
    + destruct (find (faces false) rest); cbn; intuition congruence.
    + destruct (find (faces true) rest); cbn; intuition congruence.
Qed.

(** X12.  When the platform lists at least one camera and goes on describing
    cameras the same way, detection returns and puts in front of the
    manager's list the first camera the platform describes and the first
    after it that faces the other way, the later one first; a camera is
    added exactly when it is the first described one of its facing, so at
    most two are.  Every other listed camera is answered by one warning or
    error.  The platform calls are: the manager created, the metadata of
    each described camera freed, in the order of the list, then the list
    and the manager deleted. *)
Theorem detect_registers_first_of_each_facing {W : Type} {P : Ndk W}
    (m : Machine MSWebCamManager W) (ids : list string) :
  characteristics_stable ->
  ACameraManager_getCameraIdList (fst (ndk_reply (world m) ACameraManager_create)) =
    (ACAMERA_OK, ids) ->
  ids <> [] ->
  exists m' events added,
    android_camera2_capture_detect m = Done (tt, m') /\
    cams (state m') = rev added ++ cams (state m) /\
    added = first_of_each_facing (described (world m) ids) /\
    (forall c, In c added <->
               find (faces true) (described (world m) ids) = Some c \/
               find (faces false) (described (world m) ids) = Some c) /\
    (List.length added <= 2)%nat /\
    trace m' = events ++ trace m /\
    (List.length (complaints events) + List.length added)%nat = List.length ids /\
    ndk_calls (rev events) =
      ACameraManager_create
        :: map (fun c => ACameraMetadata_free (camId (cam_data c)))
             (described (world m) ids)
        ++ [ACameraManager_deleteCameraIdList;
            ACameraManager_delete (out (snd (ndk_reply (world m) ACameraManager_create)))].
Proof.
  intros Hstable Hids Hsome.
  unfold android_camera2_capture_detect. exec.
  destruct (ndk_reply (world m) ACameraManager_create) as [w1 r1] eqn:E1.
  exec. cbn [fst snd] in *. rewrite Hids. cbn [fst snd]. rewrite Z.eqb_refl.
  cbn [negb].
  assert (Hlen : (Z.of_nat (List.length ids) <? 1) = false).
  { destruct ids; [ contradiction | ]. apply Z.ltb_ge. cbn [List.length]. lia. }
  rewrite Hlen.
  match goal with
  | |- context [detect_loop ids ?f ?m1] =>
      destruct (detect_loop_adds Hstable ids f m1)
        as (m' & events & E & Hc & Ht & Hf & Hn & Hm)
  end.
  cbv beta iota zeta in Hc, Hn. cbn [state world trace] in Hc, Ht, Hn, Hm.
  assert (Hw : described w1 ids = described (world m) ids).
  { replace w1 with (fst (ndk_reply (world m) ACameraManager_create)) by now rewrite E1.
    now apply described_stable. }
  rewrite Hw in Hc, Hn, Hm.
  rewrite E. exec.
  destruct (ndk_reply (world m') ACameraManager_deleteCameraIdList) as [w2 r2].
  exec.
  destruct (ndk_reply w2 (ACameraManager_delete (out r1))) as [w3 r3].
  eexists.
  exists (Call (ACameraManager_delete (out r1)) :: Call ACameraManager_deleteCameraIdList
            :: events ++ [Call ACameraManager_create; Log Message "Detecting cameras"]).
  exists (first_of_each_facing (described (world m) ids)).
  split; [ reflexivity | ]. cbn [state world trace].
  split; [ exact Hc | ]. split; [ reflexivity | ].
  split; [ apply first_of_each_facing_first | ].
  split.
  { destruct (described (world m) ids) as [ | c0 rest ]; cbn; [ lia | ].
    destruct (find _ rest); cbn; lia. }
  split.
  { rewrite Ht. cbn [app]. rewrite <- app_assoc. reflexivity. }
  split.
  { unfold complaints in *. cbn [List.filter]. rewrite filter_app, length_app. cbn. lia. }
  cbn [rev]. rewrite rev_app_distr. cbn [rev app].
  unfold ndk_calls in *. cbn [flat_map app]. rewrite !flat_map_app, Hm.
  cbn [flat_map app]. rewrite <- app_assoc. reflexivity.
Qed.


Lemma detect_registers_first_of_each_facing_witness :
  exists m',
    android_camera2_capture_detect MockRuns.empty_manager = Done (tt, m') /\
    List.length (cams (state m')) = 2%nat.
Proof.
  destruct (detect_registers_first_of_each_facing MockRuns.empty_manager
              ["0"; "1"; "2"; "3"]%string)
    as (m' & events & added & H1 & H2 & H3 & _).
  - exact mock_characteristics_stable.
  - reflexivity.
  - discriminate.
  - exists m'. split; [ exact H1 | ]. rewrite H2, H3. reflexivity.
Defined.

(** X13.  When the platform gives no list of cameras, or an empty one,
    detection returns after one error or warning with the manager's list as
    it was; the camera manager it created is not deleted, since the only
    platform call is its creation. *)
Theorem detect_without_cameras_keeps_the_manager {W : Type} {P : Ndk W}
    (m : Machine MSWebCamManager W) :
  fst (ACameraManager_getCameraIdList (fst (ndk_reply (world m) ACameraManager_create)))
    <> ACAMERA_OK \/
  snd (ACameraManager_getCameraIdList (fst (ndk_reply (world m) ACameraManager_create)))
    = [] ->
  exists m',
    android_camera2_capture_detect m = Done (tt, m') /\
    state m' = state m /\
    trace m' =
      (if fst (ACameraManager_getCameraIdList
                 (fst (ndk_reply (world m) ACameraManager_create))) =? ACAMERA_OK
       then Log Warning "No camera detected, check you have granted CAMERA permission !"
       else Log Error "Failed to get camera(s) list : %d")
        :: Call ACameraManager_create :: Log Message "Detecting cameras" :: trace m.
Proof.
  intros Hnone.
  unfold android_camera2_capture_detect. exec.
  destruct (ndk_reply (world m) ACameraManager_create) as [w1 r1]. exec.
  cbn [fst snd] in *.
  destruct (fst (ACameraManager_getCameraIdList w1) =? ACAMERA_OK) eqn:Hst; cbn [negb].
  - destruct Hnone as [Hbad | Hempty]; [ apply Z.eqb_eq in Hst; contradiction | ].
    rewrite Hempty. cbn. eexists. repeat split.
  - eexists. repeat split.
Qed.

Lemma detect_without_cameras_keeps_the_manager_witness :
  exists m',
    android_camera2_capture_detect no_camera = Done (tt, m') /\
    state m' = state no_camera.
Proof.
  destruct (detect_without_cameras_keeps_the_manager no_camera)
    as (m' & H1 & H2 & _).
  - right. reflexivity.
  - exists m'. exact (conj H1 H2).
Defined.

(** ** The device of a filter *)

Create HintDb bound.

Section Bound.

Context {W : Type} {P : Ndk W}.

(** An update that leaves the device alone respects [bound] when it leaves
    the camera alone too, closes it, or opens it for a device. *)
Ltac bound_side :=
  let Hd := fresh "Hd" in
  let Hwf := fresh "Hwf" in
  intros ? ? (Hd & Hwf); split;
  [ exact Hd | first [ exact Hwf | left; discriminate | right; reflexivity ] ].

(** What [get] returned has the device of the invariant. *)
Ltac bound_known :=
  match goal with
  | H : exists t, bound ?dev ?d t |- _ =>
      let Hd := fresh "Hd" in
      destruct H as (? & Hd & _); rewrite ?Hd
  end.

Ltac bound :=
  keeps_with ltac:(idtac; bound_side) ltac:(idtac; bound_known)
    ltac:(idtac; solve [ auto with bound ]).

Lemma keeps_bound_open_camera dev :
  keeps (W:=W) (bound dev) android_camera2_capture_open_camera.
Proof. unfold android_camera2_capture_open_camera, log. bound. Qed.

Lemma keeps_bound_close_camera dev :
  keeps (W:=W) (bound dev) android_camera2_capture_close_camera.
Proof. unfold android_camera2_capture_close_camera, log. bound. Qed.

#[local] Hint Resolve keeps_bound_open_camera keeps_bound_close_camera : bound.

Lemma keeps_bound_start dev :
  keeps (W:=W) (bound dev) android_camera2_capture_start.
Proof. unfold android_camera2_capture_start, log. bound. Qed.

Lemma keeps_bound_stop dev :
  keeps (W:=W) (bound dev) android_camera2_capture_stop.
Proof. unfold android_camera2_capture_stop, log. bound. Qed.

#[local] Hint Resolve keeps_bound_start keeps_bound_stop : bound.

Lemma keeps_bound_on_image_available dev reader :
  keeps (W:=W) (bound dev) (android_camera2_capture_on_image_available reader).
Proof.
  unfold android_camera2_capture_on_image_available,
    android_camera2_capture_image_to_mblkt, android_camera2_capture_get_orientation,
    store_frame, filter_destroyed, log.
  bound.
Qed.

Lemma keeps_bound_choose_best_configurations dev :
  keeps (W:=W) (bound dev) android_camera2_capture_choose_best_configurations.
Proof.
  unfold android_camera2_capture_choose_best_configurations, log. bound.
  apply keeps_emit_all. intros e _ ? ? H. exact H.
Qed.

#[local] Hint Resolve keeps_bound_on_image_available
  keeps_bound_choose_best_configurations : bound.

Lemma keeps_bound_host_ticker dev t :
  keeps (W:=W) (bound dev) (host_ticker t).
Proof.
  apply keeps_modify. intros d ? H. destruct (filter d); exact H.
Qed.

#[local] Hint Resolve keeps_bound_host_ticker : bound.

Lemma keeps_bound_step dev op : keeps (W:=W) (bound dev) (step op).
Proof.
  destruct op; cbn [step];
    unfold android_camera2_capture_preprocess, android_camera2_capture_process,
      android_camera2_capture_postprocess, android_camera2_capture_set_fps,
      android_camera2_capture_set_vsize, android_camera2_capture_get_vsize,
      android_camera2_capture_get_orientation,
      android_camera2_capture_set_device_rotation, log;
    bound.
Qed.

Lemma keeps_bound_run dev ops : keeps (W:=W) (bound dev) (run ops).
Proof.
  induction ops as [ | op ops IH ]; cbn [run].
  - apply keeps_ret.
  - apply keeps_bind; [ apply keeps_bound_step | intros _; exact IH ].
Qed.

End Bound.

(** X14.  Whatever the host runs on a filter, the filter keeps the device
    it was made with, and a camera is open only if there is a device.  So
    [stop] never reads a device that is not there: on every filter the host
    can reach it returns, with no capture running and the configuration as
    it was, and with every handle null if a capture was running. *)
Theorem stop_returns_on_every_reachable_filter {W : Type} {P : Ndk W}
    (m0 m : Machine AndroidCamera2Context W) (ops : list Op) :
  (exists f w, m0 = android_camera2_capture_init f w) \/
  (exists dev f w, m0 = android_camera2_capture_create_reader dev f w) ->
  run ops m0 = Done (tt, m) ->
  device (state m) = device (state m0) /\
  (device (state m) <> None \/ cameraDevice (state m) = nullptr) /\
  exists m' events,
    android_camera2_capture_stop m = Done (tt, m') /\
    trace m' = events ++ trace m /\
    Forall log_or_call events /\
    capturing (state m') = false /\
    configuration (state m') = configuration (state m) /\
    (capturing (state m) = true -> handles_null (state m')).
Proof.
  intros Hboot Hrun.
  assert (Hbound : bound (device (state m0)) (state m) (trace m)).
  { apply (keeps_bound_run (device (state m0)) ops m0 tt m); [ | exact Hrun ].
    destruct Hboot as [(f & w & ->) | (dev & f & w & ->)];
      (split; [ reflexivity | ]); cbn; [ now right | left; discriminate ]. }
  destruct Hbound as (Hdev & Hwf).
  assert (Hwf' : device (state m) <> None \/ cameraDevice (state m) = nullptr)
    by (rewrite Hdev; exact Hwf).
  split; [ exact Hdev | ]. split; [ exact Hwf' | ].
  destruct (stop_returns m Hwf') as (m' & events & H1 & H2 & H3 & H4).
  exists m', events. split; [ exact H1 | ]. split; [ exact H3 | ].
  split; [ exact H4 | ]. rewrite H2.
  destruct (capturing (state m)) eqn:Hcap.
  - split; [ reflexivity | ]. split; [ reflexivity | ].
    intros _. apply stopped_handles_null.
  - split; [ exact Hcap | ]. split; [ reflexivity | discriminate ].
Qed.

Lemma stop_returns_on_every_reachable_filter_witness :
  exists m',
    android_camera2_capture_stop
      (MockRuns.after [SetVsize {| width := 640; height := 480 |}]
         (MockRuns.boot Mock.phone)) = Done (tt, m') /\
    capturing (state m') = false.
Proof.
  destruct (stop_returns_on_every_reachable_filter
              (MockRuns.boot Mock.phone)
              (MockRuns.after [SetVsize {| width := 640; height := 480 |}]
                 (MockRuns.boot Mock.phone))
              [SetVsize {| width := 640; height := 480 |}])
    as (_ & _ & m' & events & H1 & _ & _ & H2 & _).
  - right. do 3 eexists. reflexivity.
  - vm_compute. reflexivity.
  - exists m'. exact (conj H1 H2).
Defined.

Section Deviceless.

Context {W : Type} {P : Ndk W}.

(** [stop] leaves the device of the context as it finds it. *)
Lemma keeps_device_stop dev :
  keeps (W:=W) (fun d _ => device d = dev) android_camera2_capture_stop.
Proof.
  unfold android_camera2_capture_stop, android_camera2_capture_close_camera, log.
  keeps_with ltac:(idtac; let Hd := fresh "Hd" in intros ? ? Hd; exact Hd)
    ltac:(idtac) ltac:(idtac; fail).
Qed.

End Deviceless.

(** X15.  A filter without a device, as [init] makes it, cannot be asked
    for its size or given another one: [get_vsize] reads the orientation
    through the null device, [set_vsize] with a size other than the current
    one reaches the negotiation, which reads the camera id through it, and
    the image callback reads the orientation through it as soon as it has
    an image to convert. *)
Theorem size_methods_fault_without_a_device {W : Type} {P : Ndk W}
    (m : Machine AndroidCamera2Context W) :
  device (state m) = None ->
  android_camera2_capture_get_vsize m = Fault /\
  (forall size,
     width (captureSize (state m)) <> width size \/
     height (captureSize (state m)) <> height size ->
     android_camera2_capture_set_vsize size m = Fault) /\
  (forall image, android_camera2_capture_image_to_mblkt image m = Fault).
Proof.
  intros Hdev. split; [ | split ].
  - unfold android_camera2_capture_get_vsize, android_camera2_capture_get_orientation.
    exec. now rewrite Hdev.
  - intros size Hsize. unfold android_camera2_capture_set_vsize. exec.
    assert (Hne : (width (captureSize (state m)) =? width size)
                  && (height (captureSize (state m)) =? height size) = false).
    { apply andb_false_iff. rewrite !Z.eqb_neq. exact Hsize. }
    rewrite Hne. exec.
    match goal with
    | |- context [android_camera2_capture_stop ?m1] =>
        destruct (android_camera2_capture_stop m1) as [[[] m2] | ] eqn:E;
          [ | reflexivity ];
          assert (Hdev2 : device (state m2) = None)
            by (apply (keeps_device_stop None m1 tt m2); [ exact Hdev | exact E ])
    end.
    unfold android_camera2_capture_choose_best_configurations. exec.
    now rewrite Hdev2.
  - intros image. now apply image_to_mblkt_undescribed.
Qed.

Lemma size_methods_fault_without_a_device_witness :
  android_camera2_capture_get_vsize
    (android_camera2_capture_init Mock.ticking Mock.phone) = Fault.
Proof.
  apply (size_methods_fault_without_a_device
           (android_camera2_capture_init Mock.ticking Mock.phone)).
  reflexivity.
Defined.

(** X16.  With a device, [get_vsize] returns for every orientation and
    rotation, leaves the context alone, and reports the capture size the way
    [image_to_mblkt] sizes the frame of an image of that size: transposed
    exactly when the orientation is not a multiple of 180. *)
Theorem get_vsize_reports_the_size_of_frames {W : Type} {P : Ndk W}
    (m : Machine AndroidCamera2Context W) (dev : AndroidCamera2Device) :
  device (state m) = Some dev ->
  exists size,
    android_camera2_capture_get_vsize m =
      Done (size, {| state := state m; world := world m;
                     trace := Log Message "Getting preview size: %i/%i" :: trace m |}) /\
    (width size, height size) =
      image_size (get_orientation dev (rotation (state m)))
        (width (captureSize (state m))) (height (captureSize (state m))).
Proof.
  intros Hdev.
  unfold android_camera2_capture_get_vsize, android_camera2_capture_get_orientation,
    image_size.
  exec. rewrite Hdev. exec.
  destruct (Z.rem _ 180 =? 0); eexists; split; reflexivity.
Qed.

Lemma get_vsize_reports_the_size_of_frames_witness :
  exists size m',
    android_camera2_capture_get_vsize
      (MockRuns.asking {| width := 640; height := 480 |} Mock.phone) = Done (size, m') /\
    (width size, height size) = (480, 640).
Proof.
  destruct (get_vsize_reports_the_size_of_frames
              (MockRuns.asking {| width := 640; height := 480 |} Mock.phone)
              Mock.back_camera)
    as (size & H1 & H2).
  - reflexivity.
  - exists size. eexists. split; [ exact H1 | ]. rewrite H2. reflexivity.
Defined.
